(** * Autism Prediction API: the scoring, session and persistence pipeline

    A shallow embedding of [main.py] and [schemas.py].

    - Python [float] is IEEE 754 binary64: it is modelled by Rocq's primitive
      [float], whose literals are rounded to the nearest binary64 value
      exactly as Python's are.
    - Python [str] is [string], the UTF-8 bytes of its code points; a lone
      surrogate, which a Python [str] can hold and UTF-8 has no encoding for,
      is the three bytes [ED A0..BF 80..BF] that the same scheme gives it.
      [Optional[str]] is [option string].
    - The handlers read and write one shared document store: they are
      functions in a state-and-exception monad over [Database].
    - [secrets.token_urlsafe(24)] is the only source of randomness: the value
      it returns in a call is an explicit argument [tok] of the functions that
      reach it. *)

From Stdlib Require Import Floats ZArith PArith Bool Arith Lia List.
From Stdlib Require Import Permutation.
From Stdlib Require Import Ascii String DecimalString DecimalNat.
Import ListNotations.

#[local] Set Warnings "-inexact-float".
#[local] Open Scope string_scope.

(** ** Python built-ins used by the handlers *)

(** [min(a, b)] keeps its first argument unless the second is smaller. *)
Definition py_min (a b : float) : float := if (b <? a)%float then b else a.

(** [max(a, b)] keeps its first argument unless the second is greater. *)
Definition py_max (a b : float) : float := if (a <? b)%float then b else a.

(** Truth value of an [Optional[str]]: [None] and [""] are false. *)
Definition truthy (s : option string) : bool :=
  match s with
  | None => false
  | Some s => negb (String.eqb s "")
  end.

(** [x or d] on an [Optional[str]]. *)
Definition py_or (s : option string) (d : string) : string :=
  match s with
  | Some s => if String.eqb s "" then d else s
  | None => d
  end.

(** [str.lower()], on the ASCII letters.  Bytes above 127 (the UTF-8 encoding
    of the other code points) are left alone; no code point outside ASCII
    lowers to a string of the letters of ["patient"] or ["doctor"] alone, so
    the role test of the handlers is not affected. *)
Definition lower_ascii (c : ascii) : ascii :=
  let n := nat_of_ascii c in
  if ((65 <=? n) && (n <=? 90))%nat then ascii_of_nat (n + 32) else c.

Fixpoint lower (s : string) : string :=
  match s with
  | EmptyString => EmptyString
  | String c s' => String (lower_ascii c) (lower s')
  end.

(** ** Request models *)

Module PredictionRequest.
Record t : Type := mk
  { eye_contact : float;
    speech_delay : float;
    repetitive_behavior : float;
    sensory_sensitivity : float;
    social_interaction_difficulty : float;
    notes : option string }.
End PredictionRequest.

(** The five questionnaire keys, and [getattr(req, k)] on them. *)
Inductive feature : Type :=
  | eye_contact
  | speech_delay
  | repetitive_behavior
  | sensory_sensitivity
  | social_interaction_difficulty.

Definition feature_name (k : feature) : string :=
  match k with
  | eye_contact => "eye_contact"
  | speech_delay => "speech_delay"
  | repetitive_behavior => "repetitive_behavior"
  | sensory_sensitivity => "sensory_sensitivity"
  | social_interaction_difficulty => "social_interaction_difficulty"
  end.

Definition getattr (req : PredictionRequest.t) (k : feature) : float :=
  match k with
  | eye_contact => PredictionRequest.eye_contact req
  | speech_delay => PredictionRequest.speech_delay req
  | repetitive_behavior => PredictionRequest.repetitive_behavior req
  | sensory_sensitivity => PredictionRequest.sensory_sensitivity req
  | social_interaction_difficulty =>
      PredictionRequest.social_interaction_difficulty req
  end.

(** ** Risk scoring (the first half of [predict]) *)

Module Scoring.
#[local] Open Scope float_scope.

(** The [weights] dict, in insertion order. *)
Definition weights : list (feature * float) :=
  [ (eye_contact, 0.18);
    (speech_delay, 0.22);
    (repetitive_behavior, 0.22);
    (sensory_sensitivity, 0.2);
    (social_interaction_difficulty, 0.18) ].

(** [total = 0.0; for k, w in weights.items(): total += getattr(req, k) * w] *)
Definition total (req : PredictionRequest.t) : float :=
  fold_left (fun acc kw => acc + getattr req (fst kw) * snd kw) weights 0.0.

(** [probability = max(0.0, min(1.0, total))] *)
Definition probability (req : PredictionRequest.t) : float :=
  py_max 0.0 (py_min 1.0 (total req)).

(** The [if]/[elif]/[else] chain on [probability]. *)
Definition label_of (p : float) : string :=
  if p <? 0.33 then "Low Risk"
  else if p <? 0.66 then "Moderate Risk"
  else "High Risk".

Definition label (req : PredictionRequest.t) : string :=
  label_of (probability req).
End Scoring.

(** ** Schemas ([schemas.py])

    One record per Pydantic model; the field constraints ([ge], [le]) are
    checked by the constructor functions further down. *)

Module Patient.
Record t : Type := mk
  { name : string;
    email : string;
    password_hash : string;
    age : option Z;
    gender : option string }.
End Patient.

Module Doctor.
Record t : Type := mk
  { name : string;
    email : string;
    password_hash : string;
    specialty : option string;
    hospital : option string }.
End Doctor.

Module Assessment.
Record t : Type := mk
  { patient_id : string;
    features : list (string * float);
    score : float;
    probability : float;
    result_label : string;
    notes : option string;
    reviewed_by : option string;
    feedback_id : option string }.
End Assessment.

Module Feedback.
Record t : Type := mk
  { doctor_id : string;
    assessment_id : string;
    message : string;
    severity : option string;
    recommendations : list string }.
End Feedback.

Module Session.
Record t : Type := mk
  { user_id : string;
    role : string;
    token : string }.
End Session.

(** ** Exceptions and the handler monad *)

(** What a handler can raise: FastAPI's [HTTPException(status_code, detail)],
    or Pydantic's [ValidationError] when a model constructor rejects a field. *)
Inductive exn : Type :=
  | HTTPException (status_code : nat) (detail : string)
  | ValidationError (field : string)
  | UnicodeEncodeError.

(** [s.encode()]: the UTF-8 bytes of [s], which are [s] itself here; it
    raises [UnicodeEncodeError] when [s] holds a surrogate code point, that
    is when a byte [ED] is followed by a byte of [A0..BF]. *)
Definition surrogate_at (c d : ascii) : bool :=
  ((nat_of_ascii c =? 237) && (160 <=? nat_of_ascii d)
   && (nat_of_ascii d <=? 191))%nat.

Fixpoint has_surrogate (s : string) : bool :=
  match s with
  | EmptyString => false
  | String c s' =>
      match s' with
      | String d _ => surrogate_at c d
      | EmptyString => false
      end
      || has_surrogate s'
  end.

Definition encode (s : string) : exn + string :=
  if has_surrogate s then inl UnicodeEncodeError else inr s.

(** A stored document: the store's [_id] and the model's fields. *)
Record Document (A : Type) : Type := mkDoc
  { oid : nat;
    body : A }.
Arguments mkDoc {A} _ _.
Arguments oid {A} _.
Arguments body {A} _.

(** The five collections, each in insertion order, and the counter the next
    [_id] is taken from. *)
Record Database : Type := mkDatabase
  { patient : list (Document Patient.t);
    doctor : list (Document Doctor.t);
    assessment : list (Document Assessment.t);
    feedback : list (Document Feedback.t);
    session : list (Document Session.t);
    next_oid : nat }.

Definition empty_db : Database := mkDatabase [] [] [] [] [] 0.

(** A handler runs on the store and leaves an outcome and the store: what was
    written before a [raise] stays written. *)
Definition M (A : Type) : Type := Database -> (exn + A) * Database.

Definition ret {A} (a : A) : M A := fun db => (inr a, db).

Definition raise {A} (e : exn) : M A := fun db => (inl e, db).

Definition bind {A B} (c : M A) (k : A -> M B) : M B :=
  fun db =>
    match c db with
    | (inr a, db') => k a db'
    | (inl e, db') => (inl e, db')
    end.

Declare Scope handler_scope.
Delimit Scope handler_scope with handler.
Notation "x <- c ;; k" := (bind c (fun x => k))
  (at level 100, c at next level, right associativity) : handler_scope.
#[local] Open Scope handler_scope.

(** A model constructor's outcome, run as a handler step. *)
Definition lift {A} (r : exn + A) : M A := fun db => (r, db).

(** ** The document store *)

(** A named collection of the store: how to read it and how to replace it. *)
Record collection (A : Type) : Type := mkCollection
  { coll_name : string;
    coll_docs : Database -> list (Document A);
    coll_put : list (Document A) -> Database -> Database }.
Arguments coll_name {A} _.
Arguments coll_docs {A} _ _.
Arguments coll_put {A} _ _ _.

Definition patient_c : collection Patient.t :=
  mkCollection _ "patient" patient
    (fun l db => mkDatabase l (doctor db) (assessment db) (feedback db)
                   (session db) (next_oid db)).

Definition doctor_c : collection Doctor.t :=
  mkCollection _ "doctor" doctor
    (fun l db => mkDatabase (patient db) l (assessment db) (feedback db)
                   (session db) (next_oid db)).

Definition assessment_c : collection Assessment.t :=
  mkCollection _ "assessment" assessment
    (fun l db => mkDatabase (patient db) (doctor db) l (feedback db)
                   (session db) (next_oid db)).

Definition feedback_c : collection Feedback.t :=
  mkCollection _ "feedback" feedback
    (fun l db => mkDatabase (patient db) (doctor db) (assessment db) l
                   (session db) (next_oid db)).

Definition session_c : collection Session.t :=
  mkCollection _ "session" session
    (fun l db => mkDatabase (patient db) (doctor db) (assessment db)
                   (feedback db) l (next_oid db)).

(** [str(_id)]: the identifier as the handlers see it. *)
Definition str_oid (n : nat) : string :=
  NilEmpty.string_of_uint (Nat.to_uint n).

Definition bump_oid (db : Database) : Database :=
  mkDatabase (patient db) (doctor db) (assessment db) (feedback db)
    (session db) (S (next_oid db)).

(** Modelled from the spec: [database.py] ([create_document], [get_documents])
    is imported by [main.py] but is not among the sources.  The spec gives
    [create(collection, document) -> id], which "assigns and returns an opaque
    identifier", a single-document write that is read back by later finds.
    The identifier is taken from a counter, so no two documents share one.
    The store always answers here: the spec's storage error (the store being
    unavailable) is not modelled, and the theorems are about the requests
    the store serves. *)
Definition create_document {A} (c : collection A) (doc : A) : M string :=
  fun db =>
    let n := next_oid db in
    (inr (str_oid n), bump_oid (coll_put c (coll_docs c db ++ [mkDoc n doc]) db)).

(** Modelled from the spec: [find(collection, filter, limit?) -> [document]],
    an "equality-filter match over the collection's documents".  The filter
    dict is the predicate [flt] on a document's fields.  The spec leaves the
    order of the matches open; the model fixes one order, that of insertion,
    and [limit] keeps the first matches in it.  What the theorems beyond the
    claims say of a listing is said up to the order of its documents, and
    what they say of a token's session is said of a token that one session
    carries. *)
Definition get_documents {A} (c : collection A) (flt : A -> bool)
    (limit : option nat) : M (list (Document A)) :=
  fun db =>
    let found := filter (fun d => flt (body d)) (coll_docs c db) in
    (inr (match limit with Some n => firstn n found | None => found end), db).

(** ** Model constructors with field constraints *)

(** [Assessment(...)]: [score] and [probability] carry [ge=0.0, le=1.0]; the
    two back-reference fields are left at their default [None]. *)
Definition in_unit_interval (x : float) : bool :=
  ((0.0 <=? x) && (x <=? 1.0))%float.

Definition Assessment_init (patient_id : string)
    (features : list (string * float)) (score probability : float)
    (result_label : string) (notes : string) : exn + Assessment.t :=
  if negb (in_unit_interval score) then inl (ValidationError "score")
  else if negb (in_unit_interval probability)
  then inl (ValidationError "probability")
  else inr (Assessment.mk patient_id features score probability result_label
              (Some notes) None None).

(** ** Request and response models ([main.py]) *)

Module RegisterRequest.
Record t : Type := mk
  { role : string;
    name : string;
    email : string;
    password : string }.
End RegisterRequest.

Module LoginRequest.
Record t : Type := mk
  { role : string;
    email : string;
    password : string }.
End LoginRequest.

Module FeedbackRequest.
Record t : Type := mk
  { assessment_id : string;
    message : string;
    severity : option string;
    recommendations : option (list string) }.
End FeedbackRequest.

(** The dict [register] and [login] return. *)
Module AuthResponse.
Record t : Type := mk
  { token : string;
    role : string;
    user_id : string;
    name : string;
    email : string }.
End AuthResponse.

(** The dict [predict] returns. *)
Module PredictResponse.
Record t : Type := mk
  { assessment_id : string;
    probability : float;
    label : string }.
End PredictResponse.

(** A user document as [get_user_by_email] hands it back: a dict read from
    either the patient or the doctor collection. *)
Inductive user : Type :=
  | PatientUser (d : Document Patient.t)
  | DoctorUser (d : Document Doctor.t).

Definition user_oid (u : user) : nat :=
  match u with PatientUser d => oid d | DoctorUser d => oid d end.

Definition user_name (u : user) : string :=
  match u with
  | PatientUser d => Patient.name (body d)
  | DoctorUser d => Doctor.name (body d)
  end.

Definition user_email (u : user) : string :=
  match u with
  | PatientUser d => Patient.email (body d)
  | DoctorUser d => Doctor.email (body d)
  end.

Definition user_password_hash (u : user) : string :=
  match u with
  | PatientUser d => Patient.password_hash (body d)
  | DoctorUser d => Doctor.password_hash (body d)
  end.

(** ** The handlers *)

Section Handlers.

(** [hashlib.sha256(b).hexdigest()], on the bytes [b]. *)
Variable sha256_hexdigest : string -> string.

Definition hash_password (password : string) : exn + string :=
  match encode password with
  | inr b => inr (sha256_hexdigest b)
  | inl e => inl e
  end.

Definition verify_password (password password_hash : string) : exn + bool :=
  match encode password with
  | inr b => inr (String.eqb (sha256_hexdigest b) password_hash)
  | inl e => inl e
  end.

(** [tok] is the value of [secrets.token_urlsafe(24)] in this call. *)
Definition create_session (tok : string) (user_id role : string) : M string :=
  _ <- create_document session_c (Session.mk user_id role tok) ;;
  ret tok.

Definition get_user_by_email (role email : string) : M (option user) :=
  if String.eqb role "patient" then
    users <- get_documents patient_c
               (fun p => String.eqb (Patient.email p) email) (Some 1) ;;
    ret (option_map PatientUser (hd_error users))
  else
    users <- get_documents doctor_c
               (fun d => String.eqb (Doctor.email d) email) (Some 1) ;;
    ret (option_map DoctorUser (hd_error users)).

(** [role not in ("patient", "doctor")] *)
Definition bad_role (role : string) : bool :=
  negb (String.eqb role "patient" || String.eqb role "doctor").

Definition register (tok : string) (req : RegisterRequest.t)
    : M AuthResponse.t :=
  let role := lower (RegisterRequest.role req) in
  if bad_role role
  then raise (HTTPException 400 "Role must be patient or doctor")
  else
    existing <- get_user_by_email role (RegisterRequest.email req) ;;
    match existing with
    | Some _ => raise (HTTPException 409 "Email already registered")
    | None =>
        password_hash <- lift (hash_password (RegisterRequest.password req)) ;;
        user_id <-
          (if String.eqb role "patient" then
             create_document patient_c
               (Patient.mk (RegisterRequest.name req)
                  (RegisterRequest.email req) password_hash None None)
           else
             create_document doctor_c
               (Doctor.mk (RegisterRequest.name req)
                  (RegisterRequest.email req) password_hash None None)) ;;
        token <- create_session tok user_id role ;;
        ret (AuthResponse.mk token role user_id (RegisterRequest.name req)
               (RegisterRequest.email req))
    end.

Definition login (tok : string) (req : LoginRequest.t) : M AuthResponse.t :=
  let role := lower (LoginRequest.role req) in
  if bad_role role
  then raise (HTTPException 400 "Role must be patient or doctor")
  else
    found <- get_user_by_email role (LoginRequest.email req) ;;
    match found with
    | None => raise (HTTPException 401 "Invalid credentials")
    | Some user =>
        verified <- lift (verify_password (LoginRequest.password req)
                            (user_password_hash user)) ;;
        if negb verified
        then raise (HTTPException 401 "Invalid credentials")
        else
          token <- create_session tok (str_oid (user_oid user)) role ;;
          ret (AuthResponse.mk token role (str_oid (user_oid user))
                 (user_name user) (user_email user))
    end.

(** The [features] dict [predict] stores. *)
Definition features_of (req : PredictionRequest.t) : list (string * float) :=
  map (fun k => (feature_name k, getattr req k))
    [ eye_contact; speech_delay; repetitive_behavior; sensory_sensitivity;
      social_interaction_difficulty ].

(** The owner of the assessment: [pid = user_id], replaced by the session's
    [user_id] when a token is given, no [user_id] is, and the token's first
    session has the role ["patient"]. *)
Definition resolve_pid (token user_id : option string)
    : M (option string) :=
  match token with
  | Some t =>
      if truthy token && negb (truthy user_id) then
        sessions <- get_documents session_c
                      (fun s => String.eqb (Session.token s) t) (Some 1) ;;
        match sessions with
        | sess :: _ =>
            if String.eqb (Session.role (body sess)) "patient"
            then ret (Some (Session.user_id (body sess)))
            else ret user_id
        | [] => ret user_id
        end
      else ret user_id
  | None => ret user_id
  end.

Definition predict (req : PredictionRequest.t) (token user_id : option string)
    : M PredictResponse.t :=
  if negb (truthy token) && negb (truthy user_id)
  then raise (HTTPException 401 "Authentication required")
  else
    let probability := Scoring.probability req in
    let label := Scoring.label_of probability in
    pid <- resolve_pid token user_id ;;
    assessment <- lift (Assessment_init (py_or pid "unknown") (features_of req)
                          probability probability label
                          (py_or (PredictionRequest.notes req) "")) ;;
    assessment_id <- create_document assessment_c assessment ;;
    ret (PredictResponse.mk assessment_id probability label).

Definition patient_assessments (token : string)
    : M (list (Document Assessment.t)) :=
  sessions <- get_documents session_c
                (fun s => String.eqb (Session.token s) token) (Some 1) ;;
  match sessions with
  | sess :: _ =>
      if negb (String.eqb (Session.role (body sess)) "patient")
      then raise (HTTPException 401 "Unauthorized")
      else
        let pid := Session.user_id (body sess) in
        get_documents assessment_c
          (fun a => String.eqb (Assessment.patient_id a) pid) None
  | [] => raise (HTTPException 401 "Unauthorized")
  end.

Definition doctor_assessments (token : string)
    : M (list (Document Assessment.t)) :=
  sessions <- get_documents session_c
                (fun s => String.eqb (Session.token s) token) (Some 1) ;;
  match sessions with
  | sess :: _ =>
      if negb (String.eqb (Session.role (body sess)) "doctor")
      then raise (HTTPException 401 "Unauthorized")
      else get_documents assessment_c (fun _ => true) None
  | [] => raise (HTTPException 401 "Unauthorized")
  end.

Definition doctor_feedback (req : FeedbackRequest.t) (token : string)
    : M string :=
  sessions <- get_documents session_c
                (fun s => String.eqb (Session.token s) token) (Some 1) ;;
  match sessions with
  | sess :: _ =>
      if negb (String.eqb (Session.role (body sess)) "doctor")
      then raise (HTTPException 401 "Unauthorized")
      else
        let doctor_id := Session.user_id (body sess) in
        let fb :=
          Feedback.mk doctor_id (FeedbackRequest.assessment_id req)
            (FeedbackRequest.message req) (FeedbackRequest.severity req)
            (match FeedbackRequest.recommendations req with
             | Some (r :: rs) => r :: rs
             | _ => []
             end) in
        create_document feedback_c fb
  | [] => raise (HTTPException 401 "Unauthorized")
  end.

(** The session a token resolves to: the first match of the lookup
    [get_documents("session", {"token": token}, limit=1)] that every
    token-guarded handler starts with. *)
Definition resolve_session (token : string) (db : Database)
    : option Session.t :=
  match fst (get_documents session_c
               (fun s => String.eqb (Session.token s) token) (Some 1) db) with
  | inr (sess :: _) => Some (body sess)
  | _ => None
  end.

(** ** Store states

    What the theorems say about the store: who is registered, which states
    the handlers can produce, and what holds in all of them. *)

(** A user with this email exists in the patient (doctor) collection. *)
Definition registered_patient (email : string) (db : Database) : Prop :=
  exists d, In d (patient db) /\ Patient.email (body d) = email.

Definition registered_doctor (email : string) (db : Database) : Prop :=
  exists d, In d (doctor db) /\ Doctor.email (body d) = email.

(** A user with this email exists in the collection of this role. *)
Definition registered (role email : string) (db : Database) : Prop :=
  (role = "patient" /\ registered_patient email db) \/
  (role = "doctor" /\ registered_doctor email db).

(** The first user document of the role's collection with this email: the
    document whose [password_hash] a login is checked against. *)
Definition find_user (role email : string) (db : Database) : option user :=
  if String.eqb role "patient" then
    option_map PatientUser
      (find (fun d => String.eqb (Patient.email (body d)) email) (patient db))
  else
    option_map DoctorUser
      (find (fun d => String.eqb (Doctor.email (body d)) email) (doctor db)).

(** One request served: the store before and after. *)
Inductive step : Database -> Database -> Prop :=
  | step_register tok req db :
      step db (snd (register tok req db))
  | step_login tok req db :
      step db (snd (login tok req db))
  | step_predict req token user_id db :
      step db (snd (predict req token user_id db))
  | step_patient_assessments token db :
      step db (snd (patient_assessments token db))
  | step_doctor_assessments token db :
      step db (snd (doctor_assessments token db))
  | step_doctor_feedback req token db :
      step db (snd (doctor_feedback req token db)).

(** The stores the API can be in, starting from the empty one. *)
Inductive reachable : Database -> Prop :=
  | reachable_empty : reachable empty_db
  | reachable_step db db' : reachable db -> step db db' -> reachable db'.

(** Every [_id] of a collection was handed out already. *)
Definition oids_below {A} (n : nat) (l : list (Document A)) : Prop :=
  Forall (fun d => oid d < n) l.

(** The store invariant: identifiers come from the counter, and a session's
    [user_id] is the string of a store identifier. *)
Record db_wf (db : Database) : Prop := mk_db_wf
  { wf_patient : oids_below (next_oid db) (patient db);
    wf_doctor : oids_below (next_oid db) (doctor db);
    wf_assessment : oids_below (next_oid db) (assessment db);
    wf_feedback : oids_below (next_oid db) (feedback db);
    wf_session : oids_below (next_oid db) (session db);
    wf_session_user :
      Forall (fun d => exists n, Session.user_id (body d) = str_oid n)
        (session db) }.

End Handlers.

(** ** The scoring formula as the specification words it

    The specification gives the score as [clamp(Σ wᵢ·fᵢ, 0, 1)].  These two
    definitions follow its words; [Scoring.probability] above follows the
    code.  They are compared in the scoring theorems. *)

Definition spec_weighted_sum (req : PredictionRequest.t) : float :=
  (0.18 * PredictionRequest.eye_contact req
   + 0.22 * PredictionRequest.speech_delay req
   + 0.22 * PredictionRequest.repetitive_behavior req
   + 0.20 * PredictionRequest.sensory_sensitivity req
   + 0.18 * PredictionRequest.social_interaction_difficulty req)%float.

Definition spec_clamp (x lo hi : float) : float :=
  if (x <? lo)%float then lo else if (hi <? x)%float then hi else x.

(** ** Signed zeros

    [0.0 + x] is [x] except that it turns [-0.0] into [0.0]; two floats are
    [zsim]ilar when they are equal or are both zeros. *)

Definition SFzero (x : spec_float) : bool :=
  match x with S754_zero _ => true | _ => false end.

Definition zsim (x y : float) : Prop :=
  x = y \/ (SFzero (Prim2SF x) = true /\ SFzero (Prim2SF y) = true).

(** ** What the handlers store *)

(** The filter of the session lookup, on a stored document. *)
Definition has_token (token : string) (d : Document Session.t) : bool :=
  String.eqb (Session.token (body d)) token.

(** The assessment [predict] stores for the owner [pid]. *)
Definition predict_assessment (req : PredictionRequest.t)
    (pid : option string) : Assessment.t :=
  Assessment.mk (py_or pid "unknown") (features_of req)
    (Scoring.probability req) (Scoring.probability req) (Scoring.label req)
    (Some (py_or (PredictionRequest.notes req) "")) None None.

(** The feedback document [doctor_feedback] stores for a doctor. *)
Definition feedback_of (req : FeedbackRequest.t) (doctor_id : string)
    : Feedback.t :=
  Feedback.mk doctor_id (FeedbackRequest.assessment_id req)
    (FeedbackRequest.message req) (FeedbackRequest.severity req)
    (match FeedbackRequest.recommendations req with
     | Some rs => rs
     | None => []
     end).

(** ** Example data

    The theorems hold for every digest function; the closed runs at the end
    fix one, and a small store: Ann registered as a patient with the token
    ["tok-1"]. *)

Definition example_digest (s : string) : string := "sha256:" ++ s.

Definition ann : RegisterRequest.t :=
  RegisterRequest.mk "patient" "Ann" "ann@example.org" "pw".

Definition ann_doc : Document Patient.t :=
  mkDoc 0 (Patient.mk "Ann" "ann@example.org" "sha256:pw" None None).

Definition ann_session : Session.t := Session.mk "0" "patient" "tok-1".

Definition ann_db : Database :=
  mkDatabase [ann_doc] [] [] [] [mkDoc 1 ann_session] 2.

Definition ann_resp : AuthResponse.t :=
  AuthResponse.mk "tok-1" "patient" "0" "Ann" "ann@example.org".

Definition mixed_answers : PredictionRequest.t :=
  PredictionRequest.mk 1 0.5 0 0.25 1 None.

(** A store with Ann's and another patient's assessments, one recorded for
    "unknown", and a doctor's session. *)
Definition ward_db : Database :=
  mkDatabase [ann_doc] []
    [ mkDoc 2 (predict_assessment mixed_answers (Some "0"));
      mkDoc 3 (predict_assessment mixed_answers (Some "7"));
      mkDoc 4 (predict_assessment mixed_answers None);
      mkDoc 5 (predict_assessment (PredictionRequest.mk 1 1 1 1 1 None)
                 (Some "0")) ]
    []
    [ mkDoc 1 ann_session; mkDoc 6 (Session.mk "9" "doctor" "tok-d") ]
    7.

(** A longer run from Ann's store: she sends a prediction with her token, Dr
    Bo registers, and leaves feedback on her assessment. *)
Definition visit_db : Database :=
  snd (predict mixed_answers (Some "tok-1") None ann_db).

Definition bo : RegisterRequest.t :=
  RegisterRequest.mk "Doctor" "Bo" "bo@example.org" "pw2".

Definition staffed_db : Database :=
  snd (register example_digest "tok-d" bo visit_db).

Definition reviewed_db : Database :=
  snd (doctor_feedback
         (FeedbackRequest.mk "2" "come back in a month" (Some "Low") None)
         "tok-d" staffed_db).

(** A password that is one lone surrogate, U+D800 (the JSON string
    ["\ud800"]), and three code points around the surrogate range that do
    encode: U+00E9, U+D7FF and U+E000. *)
Definition lone_surrogate : string :=
  String (ascii_of_nat 237) (String (ascii_of_nat 160)
    (String (ascii_of_nat 128) EmptyString)).

Definition e_acute : string :=
  String (ascii_of_nat 195) (String (ascii_of_nat 169) EmptyString).

Definition below_surrogates : string :=
  String (ascii_of_nat 237) (String (ascii_of_nat 159)
    (String (ascii_of_nat 191) EmptyString)).

Definition above_surrogates : string :=
  String (ascii_of_nat 238) (String (ascii_of_nat 128)
    (String (ascii_of_nat 128) EmptyString)).

(** Ann logs in again, with a second token. *)
Definition ann_login : LoginRequest.t :=
  LoginRequest.mk "patient" "ann@example.org" "pw".

Definition relogged_db : Database :=
  snd (login example_digest "tok-2" ann_login ann_db).

(** ** The handlers without a store

    [root] and [get_schema_info] answer with constants. *)

Definition root : list (string * string) :=
  [("message", "Autism Prediction API running")].

Definition get_schema_info : list (string * list string) :=
  [("collections", ["patient"; "doctor"; "assessment"; "feedback"; "session"])].

(** ** Runs of the API *)

(** What one served request can have done to the store: nothing, or one of
    the five writes of [register], [login], [predict] and [doctor_feedback]. *)
Inductive write : Database -> Database -> Prop :=
  | write_nothing db : write db db
  | write_patient db tok p :
      find_user "patient" (Patient.email p) db = None ->
      write db
        (mkDatabase (patient db ++ [mkDoc (next_oid db) p]) (doctor db)
           (assessment db) (feedback db)
           (session db ++
            [mkDoc (S (next_oid db))
               (Session.mk (str_oid (next_oid db)) "patient" tok)])
           (S (S (next_oid db))))
  | write_doctor db tok p :
      find_user "doctor" (Doctor.email p) db = None ->
      write db
        (mkDatabase (patient db) (doctor db ++ [mkDoc (next_oid db) p])
           (assessment db) (feedback db)
           (session db ++
            [mkDoc (S (next_oid db))
               (Session.mk (str_oid (next_oid db)) "doctor" tok)])
           (S (S (next_oid db))))
  | write_login db tok role email u :
      role = "patient" \/ role = "doctor" ->
      find_user role email db = Some u ->
      write db
        (mkDatabase (patient db) (doctor db) (assessment db) (feedback db)
           (session db ++
            [mkDoc (next_oid db) (Session.mk (str_oid (user_oid u)) role tok)])
           (S (next_oid db)))
  | write_assessment db req pid :
      write db
        (mkDatabase (patient db) (doctor db)
           (assessment db ++ [mkDoc (next_oid db) (predict_assessment req pid)])
           (feedback db) (session db) (S (next_oid db)))
  | write_feedback db req token s :
      resolve_session token db = Some s ->
      Session.role s = "doctor" ->
      write db
        (mkDatabase (patient db) (doctor db) (assessment db)
           (feedback db ++
            [mkDoc (next_oid db) (feedback_of req (Session.user_id s))])
           (session db) (S (next_oid db))).

(** Any number of requests served one after the other. *)
Inductive steps (sha256_hexdigest : string -> string)
    : Database -> Database -> Prop :=
  | steps_refl db : steps sha256_hexdigest db db
  | steps_step db db' db'' :
      steps sha256_hexdigest db db' -> step sha256_hexdigest db' db'' ->
      steps sha256_hexdigest db db''.

(** [db'] holds every document of [db], unchanged and in place, and possibly
    more after them. *)
Record extends (db db' : Database) : Prop := mk_extends
  { ext_patient : exists l, patient db' = (patient db ++ l)%list;
    ext_doctor : exists l, doctor db' = (doctor db ++ l)%list;
    ext_assessment : exists l, assessment db' = (assessment db ++ l)%list;
    ext_feedback : exists l, feedback db' = (feedback db ++ l)%list;
    ext_session : exists l, session db' = (session db ++ l)%list;
    ext_next_oid : next_oid db <= next_oid db' }.

(** The user document a session stands for is in the collection of the
    session's role. *)
Definition session_refers (db : Database) (s : Session.t) : Prop :=
  (Session.role s = "patient" /\
   exists d, In d (patient db) /\ str_oid (oid d) = Session.user_id s) \/
  (Session.role s = "doctor" /\
   exists d, In d (doctor db) /\ str_oid (oid d) = Session.user_id s).

(** A feedback's [doctor_id] is the identifier of a doctor document. *)
Definition feedback_refers (db : Database) (f : Feedback.t) : Prop :=
  exists d, In d (doctor db) /\ str_oid (oid d) = Feedback.doctor_id f.

(** What [predict] makes of every assessment it stores. *)
Record assessment_sound (a : Assessment.t) : Prop := mk_assessment_sound
  { as_score : Assessment.score a = Assessment.probability a;
    as_range : in_unit_interval (Assessment.probability a) = true;
    as_label :
      Assessment.result_label a = Scoring.label_of (Assessment.probability a);
    as_owner : Assessment.patient_id a <> "";
    as_keys :
      map fst (Assessment.features a) =
      [ "eye_contact"; "speech_delay"; "repetitive_behavior";
        "sensory_sensitivity"; "social_interaction_difficulty" ];
    as_notes : Assessment.notes a <> None;
    as_reviewed_by : Assessment.reviewed_by a = None;
    as_feedback_id : Assessment.feedback_id a = None }.

(** The labels in order of risk. *)
Definition risk_rank (label : string) : nat :=
  if String.eqb label "Low Risk" then 0
  else if String.eqb label "Moderate Risk" then 1
  else 2.

(** A questionnaire answered by yes or no: [1.0] or [0.0] per question. *)
Definition answer (b : bool) : float := if b then 1%float else 0%float.

Definition yes_no (b1 b2 b3 b4 b5 : bool) : PredictionRequest.t :=
  PredictionRequest.mk (answer b1) (answer b2) (answer b3) (answer b4)
    (answer b5) None.

Definition yes_count (b1 b2 b3 b4 b5 : bool) : nat :=
  List.length (filter (fun b : bool => b) [b1; b2; b3; b4; b5]).

(** * Binary64 comparisons

    The order facts the scoring proofs need, first on the specification
    floats the primitive operations are defined by, then on [float]. *)

Module FloatOrder.

Ltac cmp_cases :=
  repeat match goal with
  | H : context [(?a ?= ?b)%Z] |- _ =>
      let E := fresh "E" in destruct (Z.compare_spec a b) as [E|E|E]
  | |- context [(?a ?= ?b)%Z] =>
      let E := fresh "E" in destruct (Z.compare_spec a b) as [E|E|E]
  | H : context [Pos.compare_cont Eq ?a ?b] |- _ =>
      let E := fresh "E" in
      change (Pos.compare_cont Eq a b) with (Pos.compare a b) in *;
      destruct (Pos.compare_spec a b) as [E|E|E]
  | |- context [Pos.compare_cont Eq ?a ?b] =>
      let E := fresh "E" in
      change (Pos.compare_cont Eq a b) with (Pos.compare a b) in *;
      destruct (Pos.compare_spec a b) as [E|E|E]
  end.

Ltac by_shape a b c :=
  destruct a as [[]|[]| |[] ? ?], b as [[]|[]| |[] ? ?], c as [[]|[]| |[] ? ?];
  simpl; try discriminate; try reflexivity.

Lemma SFcompare_antisym x y :
  SFcompare y x = option_map CompOpp (SFcompare x y).
Proof.
  destruct x as [sx|sx| |sx mx ex], y as [sy|sy| |sy my ey]; simpl;
    try destruct sx; try destruct sy; simpl; try reflexivity;
    rewrite (Z.compare_antisym ex ey); destruct (ex ?= ey)%Z; simpl;
    try reflexivity;
    change (Pos.compare_cont Eq my mx) with (Pos.compare my mx);
    change (Pos.compare_cont Eq mx my) with (Pos.compare mx my);
    rewrite (Pos.compare_antisym mx my);
    destruct (mx ?= my)%positive; reflexivity.
Qed.

Lemma SFcompare_refl x : x <> S754_nan -> SFcompare x x = Some Eq.
Proof.
  destruct x as [[]|[]| |[] m e]; simpl; intros H; try reflexivity;
    try congruence;
    now rewrite Z.compare_refl, Pos.compare_cont_refl.
Qed.

Lemma SFcompare_none x y :
  SFcompare x y = None -> x = S754_nan \/ y = S754_nan.
Proof.
  destruct x as [sx|sx| |sx mx ex], y as [sy|sy| |sy my ey]; simpl;
    intros H; try discriminate; auto.
Qed.

Lemma SFleb_ltb_trans a b c :
  SFleb a b = true -> SFltb b c = true -> SFltb a c = true.
Proof.
  unfold SFleb, SFltb. by_shape a b c; intros H1 H2;
    cmp_cases; simpl in *; try discriminate; try reflexivity; lia.
Qed.

Lemma SFltb_leb_trans a b c :
  SFltb a b = true -> SFleb b c = true -> SFltb a c = true.
Proof.
  unfold SFleb, SFltb. by_shape a b c; intros H1 H2;
    cmp_cases; simpl in *; try discriminate; try reflexivity; lia.
Qed.

#[local] Open Scope float_scope.

Lemma is_nan_false x : is_nan x = false <-> Prim2SF x <> S754_nan.
Proof.
  unfold is_nan. rewrite FloatAxioms.eqb_spec. unfold SFeqb. split.
  - intros H E. rewrite E in H. discriminate.
  - intros H. now rewrite SFcompare_refl.
Qed.

Lemma ltb_leb x y : (x <? y) = true -> (x <=? y) = true.
Proof.
  rewrite FloatAxioms.ltb_spec, FloatAxioms.leb_spec. unfold SFltb, SFleb.
  now destruct (SFcompare _ _) as [[]|].
Qed.

Lemma ltb_asym x y : (x <? y) = true -> (y <? x) = false.
Proof.
  rewrite !FloatAxioms.ltb_spec. unfold SFltb.
  rewrite (SFcompare_antisym (Prim2SF x) (Prim2SF y)).
  now destruct (SFcompare _ _) as [[]|].
Qed.

Lemma ltb_not_leb x y : (x <? y) = true -> (y <=? x) = false.
Proof.
  rewrite FloatAxioms.ltb_spec, FloatAxioms.leb_spec. unfold SFltb, SFleb.
  rewrite (SFcompare_antisym (Prim2SF x) (Prim2SF y)).
  now destruct (SFcompare _ _) as [[]|].
Qed.

Lemma leb_not_ltb x y : (x <=? y) = true -> (y <? x) = false.
Proof.
  rewrite FloatAxioms.ltb_spec, FloatAxioms.leb_spec. unfold SFltb, SFleb.
  rewrite (SFcompare_antisym (Prim2SF x) (Prim2SF y)).
  now destruct (SFcompare _ _) as [[]|].
Qed.

Lemma not_ltb_leb x y :
  is_nan x = false -> is_nan y = false -> (x <? y) = false -> (y <=? x) = true.
Proof.
  intros Hx Hy. apply is_nan_false in Hx, Hy.
  rewrite FloatAxioms.ltb_spec, FloatAxioms.leb_spec. unfold SFltb, SFleb.
  rewrite (SFcompare_antisym (Prim2SF x) (Prim2SF y)).
  destruct (SFcompare _ _) as [[]|] eqn:E; simpl; try easy.
  destruct (SFcompare_none _ _ E); contradiction.
Qed.

Lemma leb_not_nan x y :
  (x <=? y) = true -> is_nan x = false /\ is_nan y = false.
Proof.
  rewrite FloatAxioms.leb_spec. unfold SFleb. intros H.
  split; apply is_nan_false; intros E; rewrite E in H;
    try discriminate; now destruct (Prim2SF x).
Qed.

Lemma feqb_refl x : is_nan x = false -> (x =? x) = true.
Proof. unfold is_nan. now destruct (x =? x). Qed.

Lemma leb_antisym_eqb x y :
  (x <=? y) = true -> (y <=? x) = true -> (x =? y) = true.
Proof.
  rewrite !FloatAxioms.leb_spec, FloatAxioms.eqb_spec. unfold SFleb, SFeqb.
  rewrite (SFcompare_antisym (Prim2SF x) (Prim2SF y)).
  now destruct (SFcompare _ _) as [[]|].
Qed.

Lemma leb_ltb_trans x y z :
  (x <=? y) = true -> (y <? z) = true -> (x <? z) = true.
Proof. rewrite !FloatAxioms.ltb_spec, FloatAxioms.leb_spec. apply SFleb_ltb_trans. Qed.

Lemma ltb_leb_trans x y z :
  (x <? y) = true -> (y <=? z) = true -> (x <? z) = true.
Proof. rewrite !FloatAxioms.ltb_spec, FloatAxioms.leb_spec. apply SFltb_leb_trans. Qed.

Lemma ltb_trans x y z :
  (x <? y) = true -> (y <? z) = true -> (x <? z) = true.
Proof. intros H. apply leb_ltb_trans. now apply ltb_leb. Qed.

Lemma nan_ltb_l x y : is_nan x = true -> (x <? y) = false.
Proof.
  intros H. rewrite FloatAxioms.ltb_spec. unfold SFltb.
  destruct (Prim2SF x) eqn:E; try reflexivity;
    assert (N : is_nan x = false) by (apply is_nan_false; congruence);
    congruence.
Qed.


Lemma fmul_comm x y : x * y = y * x.
Proof.
  apply Prim2SF_inj. rewrite !mul_spec. unfold SF64mul.
  destruct (Prim2SF x) as [sx|sx| |sx mx ex],
    (Prim2SF y) as [sy|sy| |sy my ey]; simpl;
    rewrite ?(xorb_comm sy sx), ?(Pos.mul_comm my mx), ?(Z.add_comm ey ex);
    reflexivity.
Qed.

Lemma zsim_zero_add x : zsim (0 + x) x.
Proof.
  unfold zsim. rewrite add_spec. unfold SF64add.
  change (Prim2SF 0) with (S754_zero false).
  destruct (Prim2SF x) as [[]|[]| |[] m e] eqn:E; simpl; auto;
    left; apply Prim2SF_inj; rewrite add_spec, E; reflexivity.
Qed.

Lemma zsim_add x y c : zsim x y -> zsim (x + c) (y + c).
Proof.
  intros [->|[Hx Hy]]; [now left|]. unfold zsim.
  destruct (Prim2SF x) as [sx|sx| |sx mx ex] eqn:Ex; try discriminate.
  destruct (Prim2SF y) as [sy|sy| |sy my ey] eqn:Ey; try discriminate.
  destruct (Prim2SF c) as [sc|sc| |sc mc ec] eqn:Ec.
  - right. rewrite !add_spec, Ex, Ey, Ec. unfold SF64add. simpl.
    now destruct sx, sy, sc.
  - left. apply Prim2SF_inj. now rewrite !add_spec, Ex, Ey, Ec.
  - left. apply Prim2SF_inj. now rewrite !add_spec, Ex, Ey, Ec.
  - left. apply Prim2SF_inj. now rewrite !add_spec, Ex, Ey, Ec.
Qed.

(** How a zero of either sign compares with the bounds of the clamp. *)
Lemma zero_cmp x :
  SFzero (Prim2SF x) = true ->
  (x <? 1) = true /\ (0 <? x) = false /\ (x <? 0) = false /\
  (1 <? x) = false /\ (0 =? x) = true.
Proof.
  intros H. rewrite !FloatAxioms.ltb_spec, FloatAxioms.eqb_spec.
  destruct (Prim2SF x); try discriminate. now vm_compute.
Qed.

End FloatOrder.

(** * The scoring engine *)

Module ScoringFacts.
Import FloatOrder.
#[local] Open Scope float_scope.

(** The loop over [weights], unrolled. *)
Lemma total_unfold req :
  Scoring.total req =
  0 + PredictionRequest.eye_contact req * 0.18
    + PredictionRequest.speech_delay req * 0.22
    + PredictionRequest.repetitive_behavior req * 0.22
    + PredictionRequest.sensory_sensitivity req * 0.2
    + PredictionRequest.social_interaction_difficulty req * 0.18.
Proof. reflexivity. Qed.

(** The loop's total and the specification's sum differ at most in the sign
    of a zero. *)
Lemma total_weighted_sum req : zsim (Scoring.total req) (spec_weighted_sum req).
Proof.
  rewrite total_unfold. unfold spec_weighted_sum.
  rewrite (fmul_comm 0.18 (PredictionRequest.eye_contact req)),
    (fmul_comm 0.22 (PredictionRequest.speech_delay req)),
    (fmul_comm 0.22 (PredictionRequest.repetitive_behavior req)),
    (fmul_comm 0.20 (PredictionRequest.sensory_sensitivity req)),
    (fmul_comm 0.18 (PredictionRequest.social_interaction_difficulty req)).
  repeat apply zsim_add. apply zsim_zero_add.
Qed.

(** [max(0.0, min(1.0, t))] against the specification's clamp, away from
    NaN. *)
Lemma py_clamp_eqb t :
  is_nan t = false -> (py_max 0 (py_min 1 t) =? spec_clamp t 0 1) = true.
Proof.
  intros N. unfold py_max, py_min, spec_clamp.
  destruct (t <? 0) eqn:A.
  - rewrite (ltb_trans t 0 1 A eq_refl), (ltb_asym _ _ A). reflexivity.
  - destruct (1 <? t) eqn:B.
    + rewrite (ltb_asym _ _ B). reflexivity.
    + destruct (t <? 1) eqn:C.
      * destruct (0 <? t) eqn:D; [now apply feqb_refl|].
        apply leb_antisym_eqb; now apply not_ltb_leb.
      * change (0 <? 1) with true. cbv iota.
        apply leb_antisym_eqb; now apply not_ltb_leb.
Qed.

Lemma py_clamp_zero t :
  SFzero (Prim2SF t) = true -> py_max 0 (py_min 1 t) = 0.
Proof.
  intros Z. destruct (zero_cmp t Z) as (A & B & _).
  unfold py_max, py_min. now rewrite A, B.
Qed.

Lemma py_clamp_nan t : is_nan t = true -> py_max 0 (py_min 1 t) = 1.
Proof.
  intros N. unfold py_max, py_min. now rewrite (nan_ltb_l t 1 N).
Qed.

Lemma py_clamp_range t :
  (0 <=? py_max 0 (py_min 1 t)) = true /\ (py_max 0 (py_min 1 t) <=? 1) = true.
Proof.
  unfold py_max, py_min. destruct (t <? 1) eqn:C.
  - destruct (0 <? t) eqn:D; [split; now apply ltb_leb|now split].
  - now split.
Qed.

(** The probability is the clamp of the specification's weighted sum. *)
Lemma probability_clamp req :
  if is_nan (spec_weighted_sum req) then Scoring.probability req = 1
  else (Scoring.probability req =? spec_clamp (spec_weighted_sum req) 0 1)
       = true.
Proof.
  unfold Scoring.probability.
  destruct (total_weighted_sum req) as [E|[Zt Zs]].
  - rewrite E. destruct (is_nan (spec_weighted_sum req)) eqn:N.
    + now apply py_clamp_nan.
    + now apply py_clamp_eqb.
  - rewrite (py_clamp_zero _ Zt).
    destruct (zero_cmp _ Zs) as (_ & _ & A & B & C).
    unfold is_nan, spec_clamp. rewrite A, B.
    assert (R : (spec_weighted_sum req =? spec_weighted_sum req) = true).
    { rewrite FloatAxioms.eqb_spec.
      destruct (Prim2SF (spec_weighted_sum req)); try discriminate. reflexivity. }
    now rewrite R.
Qed.

Lemma probability_range req :
  (0 <=? Scoring.probability req) = true /\
  (Scoring.probability req <=? 1) = true.
Proof. apply py_clamp_range. Qed.

Lemma probability_in_unit_interval req :
  in_unit_interval (Scoring.probability req) = true.
Proof.
  unfold in_unit_interval. destruct (probability_range req) as [A B].
  now rewrite A, B.
Qed.

(** The threshold tests on a probability in [[0, 1]]. *)
Section Thresholds.
Variable p : float.
Hypothesis p_lo : (0 <=? p) = true.

Let p_num : is_nan p = false := proj2 (leb_not_nan _ _ p_lo).

Lemma label_low : Scoring.label_of p = "Low Risk" <-> (p <? 0.33) = true.
Proof.
  unfold Scoring.label_of.
  destruct (p <? 0.33); [now split|].
  destruct (p <? 0.66); split; discriminate.
Qed.

Lemma label_moderate :
  Scoring.label_of p = "Moderate Risk" <->
  (0.33 <=? p) = true /\ (p <? 0.66) = true.
Proof.
  unfold Scoring.label_of. destruct (p <? 0.33) eqn:A.
  - split; [discriminate|]. intros [L _].
    rewrite (leb_not_ltb _ _ L) in A. discriminate.
  - assert (L : (0.33 <=? p) = true) by now apply not_ltb_leb.
    destruct (p <? 0.66); split; try discriminate; auto.
    intros [_ F]. discriminate.
Qed.

Lemma label_high : Scoring.label_of p = "High Risk" <-> (0.66 <=? p) = true.
Proof.
  unfold Scoring.label_of. destruct (p <? 0.33) eqn:A.
  - split; [discriminate|]. intros H.
    pose proof (ltb_trans p 0.33 0.66 A eq_refl) as T.
    rewrite (leb_not_ltb _ _ H) in T. discriminate.
  - destruct (p <? 0.66) eqn:B.
    + split; [discriminate|]. intros H.
      rewrite (leb_not_ltb _ _ H) in B. discriminate.
    + split; [intros _|reflexivity]. now apply not_ltb_leb.
Qed.

(** Exactly one of the three threshold conditions holds. *)
Lemma thresholds_partition :
  ((p <? 0.33) = true /\ ((0.33 <=? p) && (p <? 0.66)) = false /\
   (0.66 <=? p) = false) \/
  ((p <? 0.33) = false /\ ((0.33 <=? p) && (p <? 0.66)) = true /\
   (0.66 <=? p) = false) \/
  ((p <? 0.33) = false /\ ((0.33 <=? p) && (p <? 0.66)) = false /\
   (0.66 <=? p) = true).
Proof.
  destruct (p <? 0.33) eqn:A.
  - left. rewrite (ltb_not_leb _ _ A).
    rewrite (ltb_not_leb _ _ (ltb_trans p 0.33 0.66 A eq_refl)). auto.
  - right. rewrite (not_ltb_leb p 0.33 p_num eq_refl A).
    destruct (p <? 0.66) eqn:B.
    + left. rewrite (ltb_not_leb _ _ B). auto.
    + right. rewrite (not_ltb_leb p 0.66 p_num eq_refl B). auto.
Qed.

End Thresholds.

End ScoringFacts.

(** * The document store *)

Module StoreFacts.

Lemma hd_firstn_one {A} (l : list A) : hd_error (firstn 1 l) = hd_error l.
Proof. now destruct l. Qed.

Lemma hd_filter_find {A} (f : A -> bool) (l : list A) :
  hd_error (filter f l) = find f l.
Proof.
  induction l as [|a l IH]; simpl; [reflexivity|].
  now destruct (f a).
Qed.

Lemma find_app_some {A} (f : A -> bool) (l l' : list A) (a : A) :
  find f l = Some a -> find f (l ++ l') = Some a.
Proof.
  induction l as [|b l IH]; simpl; [discriminate|].
  now destruct (f b).
Qed.

Lemma find_app_none {A} (f : A -> bool) (l l' : list A) :
  find f l = None -> find f (l ++ l') = find f l'.
Proof.
  induction l as [|b l IH]; simpl; [reflexivity|].
  now destruct (f b).
Qed.

Lemma find_none_iff {A} (f : A -> bool) (l : list A) :
  find f l = None <-> forall a, In a l -> f a = false.
Proof.
  split; [apply find_none|].
  induction l as [|b l IH]; simpl; [reflexivity|]. intros H.
  rewrite (H b (or_introl eq_refl)). apply IH. intros a Ha. apply H. now right.
Qed.

(** [str(_id)] tells identifiers apart, is never empty and never the
    sentinel ["unknown"]. *)
Lemma str_oid_inj n m : str_oid n = str_oid m -> n = m.
Proof.
  unfold str_oid. intros E. apply Unsigned.to_uint_inj.
  assert (H : Some (Nat.to_uint n) = Some (Nat.to_uint m))
    by now rewrite <- !NilEmpty.usu, E.
  now injection H.
Qed.

Lemma str_oid_shape n :
  exists c s, str_oid n = String c s /\ c <> "u"%char.
Proof.
  unfold str_oid. destruct (Nat.to_uint n) as [|d|d|d|d|d|d|d|d|d|d] eqn:E;
    simpl; try (eexists; eexists; split; [reflexivity|discriminate]).
  exfalso. pose proof (Unsigned.of_to n) as H. rewrite E in H.
  simpl in H. subst n. discriminate.
Qed.

Lemma str_oid_nonempty n : str_oid n <> "".
Proof. destruct (str_oid_shape n) as (c & s & -> & _). discriminate. Qed.

Lemma str_oid_not_unknown n : str_oid n <> "unknown".
Proof.
  destruct (str_oid_shape n) as (c & s & -> & H). intros E. apply H.
  now injection E.
Qed.

Lemma py_or_str_oid n d : py_or (Some (str_oid n)) d = str_oid n.
Proof.
  unfold py_or. destruct (String.eqb_spec (str_oid n) "") as [E|_];
    [now apply str_oid_nonempty in E|reflexivity].
Qed.

Lemma py_or_some s d : s <> "" -> py_or (Some s) d = s.
Proof.
  intros H. unfold py_or. now destruct (String.eqb_spec s "").
Qed.

Lemma truthy_some s : truthy (Some s) = true <-> s <> "".
Proof.
  unfold truthy. destruct (String.eqb_spec s ""); simpl; split;
    congruence.
Qed.

Lemma py_or_falsy s d : truthy s = false -> py_or s d = d.
Proof.
  destruct s as [s|]; simpl; [|reflexivity].
  now destruct (String.eqb s "").
Qed.


Lemma session_lookup token db :
  get_documents session_c (fun s => String.eqb (Session.token s) token)
    (Some 1) db =
  (inr (match find (has_token token) (session db) with
        | Some d => [d]
        | None => []
        end), db).
Proof.
  unfold get_documents. simpl coll_docs. f_equal. f_equal.
  fold (has_token token). rewrite <- hd_filter_find.
  now destruct (filter (has_token token) (session db)).
Qed.

Lemma resolve_session_find token db :
  resolve_session token db =
  option_map body (find (has_token token) (session db)).
Proof.
  unfold resolve_session. rewrite session_lookup. simpl.
  now destruct (find _ _).
Qed.

Lemma resolve_session_some token db s :
  resolve_session token db = Some s ->
  exists d, In d (session db) /\ body d = s /\ Session.token s = token.
Proof.
  rewrite resolve_session_find.
  destruct (find _ _) as [d|] eqn:F; [|discriminate]. intros [= <-].
  apply find_some in F. destruct F as [I T]. exists d. repeat split; auto.
  now apply String.eqb_eq.
Qed.

Lemma resolve_session_none token db :
  resolve_session token db = None <->
  forall d, In d (session db) -> Session.token (body d) <> token.
Proof.
  rewrite resolve_session_find. split.
  - destruct (find _ _) eqn:F; [discriminate|]. intros _ d I.
    apply (proj1 (find_none_iff _ _) F) in I. now apply String.eqb_neq.
  - intros H. rewrite (proj2 (find_none_iff _ _)); [reflexivity|].
    intros d I. apply String.eqb_neq. now apply H.
Qed.

End StoreFacts.

(** * The handlers, run *)

Section HandlerFacts.
Import StoreFacts.

Variable sha256_hexdigest : string -> string.

Lemma get_user_by_email_run role email db :
  get_user_by_email role email db = (inr (find_user role email db), db).
Proof.
  unfold get_user_by_email, find_user.
  destruct (String.eqb role "patient"); unfold bind, get_documents, ret;
    now rewrite hd_firstn_one, hd_filter_find.
Qed.

Lemma bad_role_false role :
  bad_role role = false <-> role = "patient" \/ role = "doctor".
Proof.
  unfold bad_role.
  destruct (String.eqb_spec role "patient"), (String.eqb_spec role "doctor");
    simpl; split; intros H; auto; try discriminate; destruct H; congruence.
Qed.

Lemma find_user_none_patient email db :
  find_user "patient" email db = None <-> ~ registered_patient email db.
Proof.
  unfold find_user, registered_patient. simpl. split.
  - destruct (find _ _) eqn:F; [discriminate|]. intros _ (d & I & E).
    apply (proj1 (find_none_iff _ _) F) in I. simpl in I.
    now apply String.eqb_neq in I.
  - intros H. rewrite (proj2 (find_none_iff _ _)); [reflexivity|].
    intros d I. apply String.eqb_neq. intros E. apply H. now exists d.
Qed.

Lemma find_user_none_doctor email db :
  find_user "doctor" email db = None <-> ~ registered_doctor email db.
Proof.
  unfold find_user, registered_doctor. simpl. split.
  - destruct (find _ _) eqn:F; [discriminate|]. intros _ (d & I & E).
    apply (proj1 (find_none_iff _ _) F) in I. simpl in I.
    now apply String.eqb_neq in I.
  - intros H. rewrite (proj2 (find_none_iff _ _)); [reflexivity|].
    intros d I. apply String.eqb_neq. intros E. apply H. now exists d.
Qed.

Lemma find_user_none role email db :
  bad_role role = false ->
  find_user role email db = None <-> ~ registered role email db.
Proof.
  intros B. apply bad_role_false in B. unfold registered.
  destruct B as [-> | ->].
  - rewrite find_user_none_patient. split.
    + intros H [[_ R]|[D _]]; [now apply H|discriminate].
    + intros H R. apply H. now left.
  - rewrite find_user_none_doctor. split.
    + intros H [[D _]|[_ R]]; [discriminate|now apply H].
    + intros H R. apply H. now right.
Qed.

(** [register], case by case. *)
Lemma register_bad_role tok req db :
  bad_role (lower (RegisterRequest.role req)) = true ->
  register sha256_hexdigest tok req db =
  (inl (HTTPException 400 "Role must be patient or doctor"), db).
Proof. intros B. unfold register. now rewrite B. Qed.

Lemma register_conflict tok req db u :
  bad_role (lower (RegisterRequest.role req)) = false ->
  find_user (lower (RegisterRequest.role req)) (RegisterRequest.email req) db
    = Some u ->
  register sha256_hexdigest tok req db = (inl (HTTPException 409 "Email already registered"), db).
Proof.
  intros B F. unfold register. rewrite B. unfold bind.
  now rewrite get_user_by_email_run, F.
Qed.

(** An unencodable password stops a registration after the two checks and
    before the first write. *)
Lemma register_unencodable tok req db :
  bad_role (lower (RegisterRequest.role req)) = false ->
  find_user (lower (RegisterRequest.role req)) (RegisterRequest.email req) db
    = None ->
  has_surrogate (RegisterRequest.password req) = true ->
  register sha256_hexdigest tok req db = (inl UnicodeEncodeError, db).
Proof.
  intros B F N. unfold register. rewrite B. unfold bind at 1.
  rewrite get_user_by_email_run, F. unfold bind at 1, lift, hash_password,
    encode. now rewrite N.
Qed.

Lemma register_patient tok req db :
  lower (RegisterRequest.role req) = "patient" ->
  find_user "patient" (RegisterRequest.email req) db = None ->
  has_surrogate (RegisterRequest.password req) = false ->
  register sha256_hexdigest tok req db =
  (inr (AuthResponse.mk tok "patient" (str_oid (next_oid db))
          (RegisterRequest.name req) (RegisterRequest.email req)),
   mkDatabase
     (patient db ++
      [mkDoc (next_oid db)
         (Patient.mk (RegisterRequest.name req) (RegisterRequest.email req)
            (sha256_hexdigest (RegisterRequest.password req)) None None)])
     (doctor db) (assessment db) (feedback db)
     (session db ++
      [mkDoc (S (next_oid db))
         (Session.mk (str_oid (next_oid db)) "patient" tok)])
     (S (S (next_oid db)))).
Proof.
  intros R F N. unfold register. cbv zeta. rewrite R.
  change (bad_role _) with false. cbv iota. unfold bind at 1.
  rewrite get_user_by_email_run, F. unfold bind at 1, lift, hash_password,
    encode. rewrite N. reflexivity.
Qed.

Lemma register_doctor tok req db :
  lower (RegisterRequest.role req) = "doctor" ->
  find_user "doctor" (RegisterRequest.email req) db = None ->
  has_surrogate (RegisterRequest.password req) = false ->
  register sha256_hexdigest tok req db =
  (inr (AuthResponse.mk tok "doctor" (str_oid (next_oid db))
          (RegisterRequest.name req) (RegisterRequest.email req)),
   mkDatabase (patient db)
     (doctor db ++
      [mkDoc (next_oid db)
         (Doctor.mk (RegisterRequest.name req) (RegisterRequest.email req)
            (sha256_hexdigest (RegisterRequest.password req)) None None)])
     (assessment db) (feedback db)
     (session db ++
      [mkDoc (S (next_oid db))
         (Session.mk (str_oid (next_oid db)) "doctor" tok)])
     (S (S (next_oid db)))).
Proof.
  intros R F N. unfold register. cbv zeta. rewrite R.
  change (bad_role _) with false. cbv iota. unfold bind at 1.
  rewrite get_user_by_email_run, F. unfold bind at 1, lift, hash_password,
    encode. rewrite N. reflexivity.
Qed.

(** [login], case by case. *)
Lemma login_bad_role tok req db :
  bad_role (lower (LoginRequest.role req)) = true ->
  login sha256_hexdigest tok req db =
  (inl (HTTPException 400 "Role must be patient or doctor"), db).
Proof. intros B. unfold login. now rewrite B. Qed.

Lemma login_no_user tok req db :
  bad_role (lower (LoginRequest.role req)) = false ->
  find_user (lower (LoginRequest.role req)) (LoginRequest.email req) db
    = None ->
  login sha256_hexdigest tok req db = (inl (HTTPException 401 "Invalid credentials"), db).
Proof.
  intros B F. unfold login. rewrite B. unfold bind.
  now rewrite get_user_by_email_run, F.
Qed.

(** An unencodable password stops the login of a user that exists: the
    digest is never compared. *)
Lemma login_unencodable tok req db u :
  bad_role (lower (LoginRequest.role req)) = false ->
  find_user (lower (LoginRequest.role req)) (LoginRequest.email req) db
    = Some u ->
  has_surrogate (LoginRequest.password req) = true ->
  login sha256_hexdigest tok req db = (inl UnicodeEncodeError, db).
Proof.
  intros B F N. unfold login. rewrite B. unfold bind.
  rewrite get_user_by_email_run, F. unfold lift, verify_password, encode.
  now rewrite N.
Qed.

Lemma login_wrong_password tok req db u :
  bad_role (lower (LoginRequest.role req)) = false ->
  find_user (lower (LoginRequest.role req)) (LoginRequest.email req) db
    = Some u ->
  has_surrogate (LoginRequest.password req) = false ->
  sha256_hexdigest (LoginRequest.password req) <> user_password_hash u ->
  login sha256_hexdigest tok req db = (inl (HTTPException 401 "Invalid credentials"), db).
Proof.
  intros B F N P. unfold login. rewrite B. unfold bind.
  rewrite get_user_by_email_run, F. unfold lift, verify_password, encode.
  rewrite N. apply String.eqb_neq in P. now rewrite P.
Qed.

Lemma login_ok tok req db u :
  bad_role (lower (LoginRequest.role req)) = false ->
  find_user (lower (LoginRequest.role req)) (LoginRequest.email req) db
    = Some u ->
  has_surrogate (LoginRequest.password req) = false ->
  sha256_hexdigest (LoginRequest.password req) = user_password_hash u ->
  login sha256_hexdigest tok req db =
  (inr (AuthResponse.mk tok (lower (LoginRequest.role req))
          (str_oid (user_oid u)) (user_name u) (user_email u)),
   mkDatabase (patient db) (doctor db) (assessment db) (feedback db)
     (session db ++
      [mkDoc (next_oid db)
         (Session.mk (str_oid (user_oid u)) (lower (LoginRequest.role req))
            tok)])
     (S (next_oid db))).
Proof.
  intros B F N P. unfold login. rewrite B. unfold bind.
  rewrite get_user_by_email_run, F. unfold lift, verify_password, encode.
  rewrite N. apply String.eqb_eq in P. now rewrite P.
Qed.

End HandlerFacts.

Section PredictFacts.
Import StoreFacts.

(** Whose assessment it is, as [predict] works it out. *)
Lemma resolve_pid_user_id token user_id db :
  truthy user_id = true -> resolve_pid token user_id db = (inr user_id, db).
Proof.
  intros U. unfold resolve_pid. rewrite U, andb_false_r.
  now destruct token.
Qed.

Lemma resolve_pid_no_token token user_id db :
  truthy token = false -> resolve_pid token user_id db = (inr user_id, db).
Proof.
  intros T. unfold resolve_pid. rewrite T. now destruct token.
Qed.

Lemma resolve_pid_token t user_id db :
  t <> "" -> truthy user_id = false ->
  resolve_pid (Some t) user_id db =
  (inr (match resolve_session t db with
        | Some s =>
            if String.eqb (Session.role s) "patient"
            then Some (Session.user_id s) else user_id
        | None => user_id
        end), db).
Proof.
  intros T U. unfold resolve_pid.
  rewrite (proj2 (truthy_some t) T), U. cbn [andb negb].
  unfold bind. rewrite session_lookup, resolve_session_find.
  destruct (find _ _) as [d|]; simpl; [|reflexivity].
  now destruct (String.eqb _ _).
Qed.

Lemma resolve_pid_total token user_id db :
  exists pid, resolve_pid token user_id db = (inr pid, db).
Proof.
  destruct (truthy user_id) eqn:U.
  - eexists. now apply resolve_pid_user_id.
  - destruct token as [t|]; [|eexists; now apply resolve_pid_no_token].
    destruct (truthy (Some t)) eqn:T.
    + eexists. apply resolve_pid_token; [now apply truthy_some|assumption].
    + eexists. now apply resolve_pid_no_token.
Qed.


Lemma predict_unauthenticated req token user_id db :
  truthy token = false -> truthy user_id = false ->
  predict req token user_id db =
  (inl (HTTPException 401 "Authentication required"), db).
Proof. intros T U. unfold predict. now rewrite T, U. Qed.

Lemma predict_run req token user_id db pid :
  (truthy token || truthy user_id) = true ->
  resolve_pid token user_id db = (inr pid, db) ->
  predict req token user_id db =
  (inr (PredictResponse.mk (str_oid (next_oid db))
          (Scoring.probability req) (Scoring.label req)),
   mkDatabase (patient db) (doctor db)
     (assessment db ++ [mkDoc (next_oid db) (predict_assessment req pid)])
     (feedback db) (session db) (S (next_oid db))).
Proof.
  intros I R. unfold predict.
  rewrite <- negb_orb, I. cbn [negb]. cbv zeta. unfold bind.
  rewrite R. unfold lift, Assessment_init.
  rewrite (ScoringFacts.probability_in_unit_interval req). reflexivity.
Qed.

(** [patient_assessments], by what the token resolves to. *)
Lemma patient_assessments_run token db :
  patient_assessments token db =
  (match resolve_session token db with
   | Some s =>
       if String.eqb (Session.role s) "patient"
       then inr (filter
                   (fun d => String.eqb (Assessment.patient_id (body d))
                               (Session.user_id s))
                   (assessment db))
       else inl (HTTPException 401 "Unauthorized")
   | None => inl (HTTPException 401 "Unauthorized")
   end, db).
Proof.
  unfold patient_assessments, bind.
  rewrite session_lookup, resolve_session_find.
  destruct (find _ _) as [d|]; simpl; [|reflexivity].
  now destruct (String.eqb _ _).
Qed.

(** [doctor_assessments], by what the token resolves to. *)
Lemma doctor_assessments_run token db :
  doctor_assessments token db =
  (match resolve_session token db with
   | Some s =>
       if String.eqb (Session.role s) "doctor"
       then inr (assessment db)
       else inl (HTTPException 401 "Unauthorized")
   | None => inl (HTTPException 401 "Unauthorized")
   end, db).
Proof.
  unfold doctor_assessments, bind.
  rewrite session_lookup, resolve_session_find.
  destruct (find _ _) as [d|]; simpl; [|reflexivity].
  destruct (String.eqb _ _); simpl; [|reflexivity].
  unfold get_documents. simpl. f_equal. f_equal.
  induction (assessment db) as [|a l IH]; simpl; congruence.
Qed.

(** [doctor_feedback], by what the token resolves to. *)
Lemma doctor_feedback_run req token db :
  doctor_feedback req token db =
  match resolve_session token db with
  | Some s =>
      if String.eqb (Session.role s) "doctor"
      then (inr (str_oid (next_oid db)),
            mkDatabase (patient db) (doctor db) (assessment db)
              (feedback db ++
               [mkDoc (next_oid db) (feedback_of req (Session.user_id s))])
              (session db) (S (next_oid db)))
      else (inl (HTTPException 401 "Unauthorized"), db)
  | None => (inl (HTTPException 401 "Unauthorized"), db)
  end.
Proof.
  unfold doctor_feedback, bind.
  rewrite session_lookup, resolve_session_find.
  destruct (find _ _) as [d|]; simpl; [|reflexivity].
  destruct (String.eqb _ _); simpl; [|reflexivity].
  unfold create_document, feedback_of. simpl.
  now destruct (FeedbackRequest.recommendations req) as [[|r rs]|].
Qed.

End PredictFacts.

(** * The store invariant *)

Section Invariant.
Import StoreFacts.

Variable sha256_hexdigest : string -> string.

Lemma oids_below_mono {A} n m (l : list (Document A)) :
  n <= m -> oids_below n l -> oids_below m l.
Proof.
  intros L H. unfold oids_below in *. eapply Forall_impl; [|exact H].
  simpl. intros d D. lia.
Qed.

Lemma oids_below_snoc {A} n m (l : list (Document A)) (a : A) :
  n < m -> oids_below n l -> oids_below m (l ++ [mkDoc n a]).
Proof.
  intros L H. apply Forall_app. split.
  - apply (oids_below_mono n); [lia|assumption].
  - now repeat constructor.
Qed.

Lemma db_wf_empty : db_wf empty_db.
Proof. constructor; constructor. Qed.

Ltac wf_grow H :=
  destruct H as [Hp Hd Ha Hf Hs Hu];
  constructor; simpl;
  try (apply oids_below_snoc; [lia|]);
  try (eapply oids_below_mono; [|eassumption]; lia);
  try (apply Forall_app; split; [assumption|repeat constructor; simpl; eauto]);
  try assumption.

Lemma find_user_oid role email db u :
  db_wf db -> find_user role email db = Some u -> user_oid u < next_oid db.
Proof.
  intros [Hp Hd _ _ _ _]. unfold find_user.
  destruct (String.eqb role "patient");
    destruct (find _ _) as [d|] eqn:F; try discriminate; intros [= <-];
    apply find_some in F; destruct F as [I _]; simpl.
  - exact (proj1 (Forall_forall _ _) Hp d I).
  - exact (proj1 (Forall_forall _ _) Hd d I).
Qed.

Lemma register_wf tok req db :
  db_wf db -> db_wf (snd (register sha256_hexdigest tok req db)).
Proof.
  intros W. destruct (bad_role (lower (RegisterRequest.role req))) eqn:B.
  - now rewrite register_bad_role.
  - destruct (find_user (lower (RegisterRequest.role req))
                (RegisterRequest.email req) db) as [u|] eqn:F.
    + now rewrite (register_conflict _ _ _ _ u).
    + destruct (has_surrogate (RegisterRequest.password req)) eqn:N.
      { now rewrite register_unencodable. }
      apply bad_role_false in B. destruct B as [R|R]; rewrite R in F.
      * rewrite register_patient by assumption. simpl.
        destruct W as [Hp Hd Ha Hf Hs Hu]. constructor; simpl.
        -- apply (oids_below_mono (S (next_oid db))); [lia|].
           apply oids_below_snoc; [lia|assumption].
        -- apply (oids_below_mono (next_oid db)); [lia|assumption].
        -- apply (oids_below_mono (next_oid db)); [lia|assumption].
        -- apply (oids_below_mono (next_oid db)); [lia|assumption].
        -- apply oids_below_snoc; [lia|].
           apply (oids_below_mono (next_oid db)); [lia|assumption].
        -- apply Forall_app; split; [assumption|].
           repeat constructor; simpl; eauto.
      * rewrite register_doctor by assumption. simpl.
        destruct W as [Hp Hd Ha Hf Hs Hu]. constructor; simpl.
        -- apply (oids_below_mono (next_oid db)); [lia|assumption].
        -- apply (oids_below_mono (S (next_oid db))); [lia|].
           apply oids_below_snoc; [lia|assumption].
        -- apply (oids_below_mono (next_oid db)); [lia|assumption].
        -- apply (oids_below_mono (next_oid db)); [lia|assumption].
        -- apply oids_below_snoc; [lia|].
           apply (oids_below_mono (next_oid db)); [lia|assumption].
        -- apply Forall_app; split; [assumption|].
           repeat constructor; simpl; eauto.
Qed.

Lemma login_wf tok req db :
  db_wf db -> db_wf (snd (login sha256_hexdigest tok req db)).
Proof.
  intros W. destruct (bad_role (lower (LoginRequest.role req))) eqn:B.
  - now rewrite login_bad_role.
  - destruct (find_user (lower (LoginRequest.role req))
                (LoginRequest.email req) db) as [u|] eqn:F.
    + destruct (has_surrogate (LoginRequest.password req)) eqn:N.
      { now rewrite (login_unencodable _ _ _ _ u). }
      destruct (String.eqb_spec
                  (sha256_hexdigest (LoginRequest.password req))
                  (user_password_hash u)) as [P|P].
      * rewrite (login_ok _ _ _ _ u) by assumption. simpl. wf_grow W.
      * now rewrite (login_wrong_password _ _ _ _ u).
    + now rewrite login_no_user.
Qed.

Lemma predict_wf req token user_id db :
  db_wf db -> db_wf (snd (predict req token user_id db)).
Proof.
  intros W. destruct (truthy token || truthy user_id) eqn:I.
  - destruct (resolve_pid_total token user_id db) as [pid R].
    rewrite (predict_run _ _ _ _ pid) by assumption. simpl. wf_grow W.
  - apply orb_false_iff in I. destruct I as [T U].
    now rewrite predict_unauthenticated.
Qed.

Lemma patient_assessments_db token db :
  snd (patient_assessments token db) = db.
Proof. now rewrite patient_assessments_run. Qed.

Lemma doctor_assessments_db token db :
  snd (doctor_assessments token db) = db.
Proof.
  unfold doctor_assessments, bind. rewrite session_lookup.
  destruct (find _ _) as [d|]; simpl; [|reflexivity].
  now destruct (String.eqb _ _).
Qed.

Lemma doctor_feedback_wf req token db :
  db_wf db -> db_wf (snd (doctor_feedback req token db)).
Proof.
  intros W. rewrite doctor_feedback_run.
  destruct (resolve_session token db) as [s|]; [|assumption].
  destruct (String.eqb _ _); [|assumption]. simpl. wf_grow W.
Qed.

Lemma step_wf db db' : db_wf db -> step sha256_hexdigest db db' -> db_wf db'.
Proof.
  intros W S. destruct S.
  - now apply register_wf.
  - now apply login_wf.
  - now apply predict_wf.
  - now rewrite patient_assessments_db.
  - now rewrite doctor_assessments_db.
  - now apply doctor_feedback_wf.
Qed.

(** Every store the API can be in satisfies the invariant. *)
Lemma reachable_wf db : reachable sha256_hexdigest db -> db_wf db.
Proof.
  induction 1 as [|db db' _ IH S]; [apply db_wf_empty|].
  now apply (step_wf db).
Qed.

(** In such a store a session's [user_id] is neither empty nor the
    sentinel. *)
Lemma wf_resolve_user_id token db s :
  db_wf db -> resolve_session token db = Some s ->
  exists n, Session.user_id s = str_oid n.
Proof.
  intros W R. apply resolve_session_some in R. destruct R as (d & I & <- & _).
  exact (proj1 (Forall_forall _ _) (wf_session_user db W) d I).
Qed.

End Invariant.

(** * The claims of the specification *)

Section Claims.
Import StoreFacts FloatOrder ScoringFacts.

Variable sha256_hexdigest : string -> string.

(** C1.  A [predict] call that carries an identifier answers, and its answer
    is scored as the specification says.  The probability is the clamp to
    [[0, 1]] of the weighted sum [0.18*eye_contact + 0.22*speech_delay +
    0.22*repetitive_behavior + 0.20*sensory_sensitivity +
    0.18*social_interaction_difficulty]: equal to it by float equality
    whenever the sum is a number (if the sum is NaN, the code answers 1).
    It always lies in [[0, 1]].  The label is "Low Risk" exactly when
    [p < 0.33], "Moderate Risk" exactly when [0.33 <= p < 0.66], "High Risk"
    exactly when [0.66 <= p]; and of these three conditions exactly one holds
    at every point of [[0, 1]]: no gap, no overlap. *)
Theorem predict_scoring req token user_id db :
  (truthy token || truthy user_id) = true ->
  exists resp db',
    predict req token user_id db = (inr resp, db') /\
    let s := spec_weighted_sum req in
    let p := PredictResponse.probability resp in
    let l := PredictResponse.label resp in
    (if is_nan s then p = 1%float else (p =? spec_clamp s 0 1)%float = true) /\
    ((0 <=? p)%float = true /\ (p <=? 1)%float = true) /\
    (l = "Low Risk" <-> (p <? 0.33)%float = true) /\
    (l = "Moderate Risk" <->
       (0.33 <=? p)%float = true /\ (p <? 0.66)%float = true) /\
    (l = "High Risk" <-> (0.66 <=? p)%float = true) /\
    (forall q : float,
       (0 <=? q)%float = true -> (q <=? 1)%float = true ->
       ((q <? 0.33) = true /\ ((0.33 <=? q) && (q <? 0.66)) = false /\
        (0.66 <=? q) = false \/
        (q <? 0.33) = false /\ ((0.33 <=? q) && (q <? 0.66)) = true /\
        (0.66 <=? q) = false \/
        (q <? 0.33) = false /\ ((0.33 <=? q) && (q <? 0.66)) = false /\
        (0.66 <=? q) = true)%float).
Proof.
  intros I. destruct (resolve_pid_total token user_id db) as [pid R].
  eexists. eexists. split; [now apply (predict_run _ _ _ _ pid)|].
  cbv zeta. cbn [PredictResponse.probability PredictResponse.label].
  destruct (probability_range req) as [Lo Hi].
  split; [apply probability_clamp|].
  split; [now split|].
  split; [now apply label_low|].
  split; [now apply label_moderate|].
  split; [now apply label_high|].
  intros q Q _. now apply thresholds_partition.
Qed.

(** C2.  With an identifier supplied: all five features at 1.0 give the
    probability 1.0 and "High Risk"; all at 0.0 give 0.0 and "Low Risk"; all
    at 0.5 give 0.5 and "Moderate Risk" (the same binary64 values, bit for
    bit). *)
Theorem predict_examples notes token user_id db :
  (truthy token || truthy user_id) = true ->
  (exists aid db',
     predict (PredictionRequest.mk 1 1 1 1 1 notes) token user_id db =
     (inr (PredictResponse.mk aid 1 "High Risk"), db')) /\
  (exists aid db',
     predict (PredictionRequest.mk 0 0 0 0 0 notes) token user_id db =
     (inr (PredictResponse.mk aid 0 "Low Risk"), db')) /\
  (exists aid db',
     predict (PredictionRequest.mk 0.5 0.5 0.5 0.5 0.5 notes) token user_id db =
     (inr (PredictResponse.mk aid 0.5 "Moderate Risk"), db')).
Proof.
  intros I. destruct (resolve_pid_total token user_id db) as [pid R].
  repeat split; eexists; eexists;
    rewrite (predict_run _ _ _ _ pid I R); reflexivity.
Qed.

(** C3 (amended).  [register] lowers the role before it tests it.  It fails
    with 400 exactly when the lowered role is neither "patient" nor "doctor";
    it fails with 409 exactly when the lowered role is one of the two and a
    user with the email exists in that role's collection.  Past the two
    checks, whatever the collection of the other role holds, it succeeds
    exactly when the password can be encoded; a password that cannot (one
    holding a lone surrogate) ends the request in [UnicodeEncodeError]. *)
Theorem register_outcome tok req db :
  let role := lower (RegisterRequest.role req) in
  let email := RegisterRequest.email req in
  let outcome := fst (register sha256_hexdigest tok req db) in
  (outcome = inl (HTTPException 400 "Role must be patient or doctor") <->
     role <> "patient" /\ role <> "doctor") /\
  (outcome = inl (HTTPException 409 "Email already registered") <->
     registered role email db) /\
  ((exists resp, outcome = inr resp) <->
     has_surrogate (RegisterRequest.password req) = false /\
     ((role = "patient" /\ ~ registered_patient email db) \/
      (role = "doctor" /\ ~ registered_doctor email db))) /\
  (outcome = inl UnicodeEncodeError <->
     has_surrogate (RegisterRequest.password req) = true /\
     ((role = "patient" /\ ~ registered_patient email db) \/
      (role = "doctor" /\ ~ registered_doctor email db))).
Proof.
  cbv zeta. set (role := lower (RegisterRequest.role req)).
  set (email := RegisterRequest.email req).
  set (free := (role = "patient" /\ ~ registered_patient email db) \/
               (role = "doctor" /\ ~ registered_doctor email db)).
  destruct (bad_role role) eqn:B.
  - rewrite (register_bad_role _ _ _ _ B). simpl fst.
    assert (N : role <> "patient" /\ role <> "doctor").
    { unfold bad_role in B. apply negb_true_iff, orb_false_iff in B.
      destruct B as [B1 B2]. now apply String.eqb_neq in B1, B2. }
    assert (NF : ~ free).
    { destruct N as [N1 N2]. intros [[R _]|[R _]]; contradiction. }
    split; [now split|]. split; [|split].
    + split; [discriminate|]. destruct N as [N1 N2].
      intros [[R _]|[R _]]; contradiction.
    + split; [intros [r E]; discriminate|]. intros [_ F]. contradiction.
    + split; [discriminate|]. intros [_ F]. contradiction.
  - pose proof (find_user_none role email db B) as FN.
    assert (V : role = "patient" \/ role = "doctor")
      by now apply bad_role_false.
    assert (NB : ~ (role <> "patient" /\ role <> "doctor")).
    { intros [N1 N2]. destruct V; contradiction. }
    assert (RF : registered role email db -> ~ free).
    { intros [[E R]|[E R]] [[E' NR]|[E' NR]]; try contradiction;
        rewrite E in E'; discriminate. }
    assert (FR : ~ registered role email db -> free).
    { intros NR. destruct V as [E|E]; [left|right]; (split; [exact E|]);
        intros R; apply NR; [left|right]; now split. }
    destruct (find_user role email db) as [u|] eqn:F.
    + rewrite (register_conflict _ _ _ _ u B F). simpl fst.
      assert (R : registered role email db).
      { destruct V as [E|E]; unfold registered, registered_patient,
          registered_doctor; unfold find_user in F; rewrite E in *;
          simpl in F; destruct (find _ _) as [d|] eqn:G; try discriminate;
          apply find_some in G; destruct G as [I M];
          apply String.eqb_eq in M; [left|right]; split; eauto. }
      split; [split; [discriminate|intros N; contradiction]|].
      split; [now split|]. split.
      * split; [intros [r E]; discriminate|]. intros [_ X].
        now apply RF in X.
      * split; [discriminate|]. intros [_ X]. now apply RF in X.
    + assert (NR : ~ registered role email db) by now apply FN.
      pose proof (FR NR) as X.
      destruct (has_surrogate (RegisterRequest.password req)) eqn:S.
      * rewrite (register_unencodable _ _ _ _ B F S). simpl fst.
        split; [split; [discriminate|intros N; contradiction]|].
        split; [split; [discriminate|intros R; contradiction]|]. split.
        -- split; [intros [r E]; discriminate|]. intros [E _]. discriminate.
        -- now split.
      * assert (E : exists resp,
                  fst (register sha256_hexdigest tok req db) = inr resp).
        { destruct V as [E|E]; fold role in E.
          - rewrite (register_patient _ _ _ _ E); [simpl; eauto| |exact S].
            fold email. now rewrite <- E.
          - rewrite (register_doctor _ _ _ _ E); [simpl; eauto| |exact S].
            fold email. now rewrite <- E. }
        destruct E as [resp E]. rewrite E.
        split; [split; [discriminate|intros N; contradiction]|].
        split; [split; [discriminate|intros R; contradiction]|]. split.
        -- split; [now split|]. intros _. now exists resp.
        -- split; [discriminate|]. intros [Y _]. discriminate.
Qed.

(** A token that no stored session carries is resolved to the session that
    is appended with it. *)
Lemma resolve_session_new tok d db db' :
  resolve_session tok db = None ->
  session db' = (session db ++ [d])%list ->
  Session.token (body d) = tok ->
  resolve_session tok db' = Some (body d).
Proof.
  rewrite !resolve_session_find. intros N S T. rewrite S.
  destruct (find _ (session db)) eqn:F; [discriminate|].
  rewrite (find_app_none _ _ _ F). simpl. unfold has_token at 1.
  now rewrite T, String.eqb_refl.
Qed.

(** Appending a session leaves what every token resolved to as it was. *)
Lemma resolve_session_kept tok s d db db' :
  resolve_session tok db = Some s ->
  session db' = (session db ++ [d])%list ->
  resolve_session tok db' = Some s.
Proof.
  rewrite !resolve_session_find. intros R S. rewrite S.
  destruct (find _ (session db)) as [d0|] eqn:F; [|discriminate].
  now rewrite (find_app_some _ _ _ _ F).
Qed.

(** C4.  After a successful registration whose token no earlier session
    carries (tokens are drawn at random and unique), looking the returned
    token up in the session collection gives the session of exactly the
    [user_id] and the role of the response; that role is the (lowered) role
    of the request, and that [user_id] is the identifier of the user document
    the registration appended to the role's collection.  The token-guarded
    handler of the role ([patient_assessments], [doctor_assessments]) accepts
    the token. *)
Theorem register_token_roundtrip tok req db resp db' :
  register sha256_hexdigest tok req db = (inr resp, db') ->
  resolve_session tok db = None ->
  resolve_session (AuthResponse.token resp) db' =
    Some (Session.mk (AuthResponse.user_id resp) (AuthResponse.role resp)
            (AuthResponse.token resp)) /\
  AuthResponse.role resp = lower (RegisterRequest.role req) /\
  (exists n,
     AuthResponse.user_id resp = str_oid n /\
     ((AuthResponse.role resp = "patient" /\
       patient db' =
         (patient db ++
          [mkDoc n (Patient.mk (RegisterRequest.name req)
                      (RegisterRequest.email req)
                      (sha256_hexdigest (RegisterRequest.password req))
                      None None)])%list) \/
      (AuthResponse.role resp = "doctor" /\
       doctor db' =
         (doctor db ++
          [mkDoc n (Doctor.mk (RegisterRequest.name req)
                      (RegisterRequest.email req)
                      (sha256_hexdigest (RegisterRequest.password req))
                      None None)])%list))) /\
  (AuthResponse.role resp = "patient" ->
   exists items,
     patient_assessments (AuthResponse.token resp) db' = (inr items, db')) /\
  (AuthResponse.role resp = "doctor" ->
   exists items,
     doctor_assessments (AuthResponse.token resp) db' = (inr items, db')).
Proof.
  intros H N.
  destruct (bad_role (lower (RegisterRequest.role req))) eqn:B.
  { rewrite (register_bad_role _ _ _ _ B) in H. discriminate. }
  destruct (find_user (lower (RegisterRequest.role req))
              (RegisterRequest.email req) db) as [u|] eqn:F.
  { rewrite (register_conflict _ _ _ _ u B F) in H. discriminate. }
  destruct (has_surrogate (RegisterRequest.password req)) eqn:PW.
  { rewrite (register_unencodable _ _ _ _ B F PW) in H. discriminate. }
  apply bad_role_false in B. destruct B as [E|E]; rewrite E in F.
  - rewrite (register_patient _ _ _ _ E F PW) in H.
    injection H as <- <-. cbn [AuthResponse.token AuthResponse.user_id
      AuthResponse.role].
    assert (R : resolve_session tok
                  (mkDatabase
                     (patient db ++
                      [mkDoc (next_oid db)
                         (Patient.mk (RegisterRequest.name req)
                            (RegisterRequest.email req)
                            (sha256_hexdigest (RegisterRequest.password req))
                            None None)])
                     (doctor db) (assessment db) (feedback db)
                     (session db ++
                      [mkDoc (S (next_oid db))
                         (Session.mk (str_oid (next_oid db)) "patient" tok)])
                     (S (S (next_oid db)))) =
                Some (Session.mk (str_oid (next_oid db)) "patient" tok)).
    { now apply (resolve_session_new tok
                   (mkDoc (S (next_oid db))
                      (Session.mk (str_oid (next_oid db)) "patient" tok)) db). }
    repeat split; auto.
    + exists (next_oid db). split; [reflexivity|]. left. now split.
    + intros _. rewrite patient_assessments_run, R. simpl. eauto.
    + discriminate.
  - rewrite (register_doctor _ _ _ _ E F PW) in H.
    injection H as <- <-. cbn [AuthResponse.token AuthResponse.user_id
      AuthResponse.role].
    assert (R : resolve_session tok
                  (mkDatabase (patient db)
                     (doctor db ++
                      [mkDoc (next_oid db)
                         (Doctor.mk (RegisterRequest.name req)
                            (RegisterRequest.email req)
                            (sha256_hexdigest (RegisterRequest.password req))
                            None None)])
                     (assessment db) (feedback db)
                     (session db ++
                      [mkDoc (S (next_oid db))
                         (Session.mk (str_oid (next_oid db)) "doctor" tok)])
                     (S (S (next_oid db)))) =
                Some (Session.mk (str_oid (next_oid db)) "doctor" tok)).
    { now apply (resolve_session_new tok
                   (mkDoc (S (next_oid db))
                      (Session.mk (str_oid (next_oid db)) "doctor" tok)) db). }
    repeat split; auto.
    + exists (next_oid db). split; [reflexivity|]. right. now split.
    + discriminate.
    + intros _. rewrite doctor_assessments_run, R. simpl. eauto.
Qed.

(** C5.  For a login whose (lowered) role is "patient" or "doctor": it fails
    with 401 exactly when no user with the email exists in that role's
    collection or the digest of the supplied password differs from the
    [password_hash] stored in the user document found.  A password that has
    no digest, because it cannot be encoded (it holds a lone surrogate), ends
    the login of an existing user in [UnicodeEncodeError] instead.  When the
    digest is the stored one the login succeeds: it appends one session
    carrying the newly drawn token, every session stored before is still
    there, and (the new token being one no earlier session carries) every
    token resolves to what it resolved to before. *)
Theorem login_outcome tok req db :
  let role := lower (LoginRequest.role req) in
  let email := LoginRequest.email req in
  let password := LoginRequest.password req in
  let digest := sha256_hexdigest password in
  bad_role role = false ->
  (fst (login sha256_hexdigest tok req db) =
     inl (HTTPException 401 "Invalid credentials") <->
   ~ registered role email db \/
   exists u, find_user role email db = Some u /\
             has_surrogate password = false /\
             digest <> user_password_hash u) /\
  (fst (login sha256_hexdigest tok req db) = inl UnicodeEncodeError <->
   exists u, find_user role email db = Some u /\
             has_surrogate password = true) /\
  (forall u,
     find_user role email db = Some u ->
     has_surrogate password = false -> digest = user_password_hash u ->
     exists db',
       login sha256_hexdigest tok req db =
         (inr (AuthResponse.mk tok role (str_oid (user_oid u)) (user_name u)
                 (user_email u)), db') /\
       session db' =
         (session db ++
          [mkDoc (next_oid db)
             (Session.mk (str_oid (user_oid u)) role tok)])%list /\
       (forall d, In d (session db) -> In d (session db')) /\
       (resolve_session tok db = None ->
        forall tok' s,
          resolve_session tok' db = Some s ->
          resolve_session tok' db' = Some s)).
Proof.
  cbv zeta. intros B.
  pose proof (find_user_none (lower (LoginRequest.role req))
                (LoginRequest.email req) db B) as FN.
  split; [|split].
  - destruct (find_user (lower (LoginRequest.role req))
                (LoginRequest.email req) db) as [u|] eqn:F.
    + destruct (has_surrogate (LoginRequest.password req)) eqn:N.
      { rewrite (login_unencodable _ _ _ _ u B F N). simpl fst.
        split; [discriminate|].
        intros [NR|(u' & _ & X & _)]; [|discriminate].
        apply FN in NR. discriminate. }
      destruct (String.eqb_spec
                  (sha256_hexdigest (LoginRequest.password req))
                  (user_password_hash u)) as [P|P].
      * rewrite (login_ok _ _ _ _ u B F N P). simpl fst. split;
          [discriminate|].
        intros [NR|(u' & [= <-] & _ & NP)]; [|contradiction].
        apply FN in NR. discriminate.
      * rewrite (login_wrong_password _ _ _ _ u B F N P). simpl fst.
        split; [|reflexivity]. intros _. right. now exists u.
    + rewrite (login_no_user _ _ _ _ B F). simpl fst.
      split; [|reflexivity]. intros _. left. now apply FN.
  - destruct (find_user (lower (LoginRequest.role req))
                (LoginRequest.email req) db) as [u|] eqn:F.
    + destruct (has_surrogate (LoginRequest.password req)) eqn:N.
      { rewrite (login_unencodable _ _ _ _ u B F N). simpl fst.
        split; [|reflexivity]. intros _. now exists u. }
      destruct (String.eqb_spec
                  (sha256_hexdigest (LoginRequest.password req))
                  (user_password_hash u)) as [P|P].
      * rewrite (login_ok _ _ _ _ u B F N P). simpl fst.
        split; [discriminate|]. intros (u' & _ & X). discriminate.
      * rewrite (login_wrong_password _ _ _ _ u B F N P). simpl fst.
        split; [discriminate|]. intros (u' & _ & X). discriminate.
    + rewrite (login_no_user _ _ _ _ B F). simpl fst.
      split; [discriminate|]. intros (u' & X & _). discriminate.
  - intros u F N P. eexists. split; [now apply login_ok|].
    cbn [session]. split; [reflexivity|]. split.
    + intros d I. apply in_or_app. now left.
    + intros _ tok' s R. eapply resolve_session_kept; [exact R|reflexivity].
Qed.

(** C6.  [predict] fails with 401 "Authentication required" exactly when
    neither a token nor a user id is supplied (an absent or empty value
    counts as not supplied, as in the code's [not token and not user_id]).
    With any identifier it succeeds; in particular a supplied token that
    resolves to no session does not make it fail. *)
Theorem predict_authentication req token user_id db :
  (fst (predict req token user_id db) =
     inl (HTTPException 401 "Authentication required") <->
   truthy token = false /\ truthy user_id = false) /\
  (truthy token = true \/ truthy user_id = true ->
   exists resp db', predict req token user_id db = (inr resp, db')) /\
  (forall t,
     token = Some t -> t <> "" -> resolve_session t db = None ->
     exists resp db', predict req token user_id db = (inr resp, db')).
Proof.
  assert (OK : (truthy token || truthy user_id) = true ->
               exists resp db',
                 predict req token user_id db = (inr resp, db')).
  { intros I. destruct (resolve_pid_total token user_id db) as [pid R].
    eexists. eexists. now apply (predict_run _ _ _ _ pid). }
  split; [|split].
  - destruct (truthy token || truthy user_id) eqn:I.
    + destruct (OK eq_refl) as (resp & db' & E). rewrite E. simpl fst.
      split; [discriminate|]. intros [T U]. rewrite T, U in I. discriminate.
    + apply orb_false_iff in I. destruct I as [T U].
      rewrite (predict_unauthenticated _ _ _ _ T U). now split.
  - intros [T|U]; apply OK; [now rewrite T|now rewrite U, orb_true_r].
  - intros t -> T _. apply OK. now rewrite (proj2 (truthy_some t) T).
Qed.

(** C7.  When only a token is supplied, [predict] stores an assessment whose
    [patient_id] is the session's [user_id] exactly when the token resolves
    to a session of role "patient"; when it resolves to a session of another
    role, or to none, the stored [patient_id] is "unknown".  The store is one
    the API can be in ([db_wf]). *)
Theorem predict_token_only_owner req t user_id db :
  db_wf db -> t <> "" -> truthy user_id = false ->
  exists resp db' a,
    predict req (Some t) user_id db = (inr resp, db') /\
    assessment db' = (assessment db ++ [mkDoc (next_oid db) a])%list /\
    PredictResponse.assessment_id resp = str_oid (next_oid db) /\
    (forall s,
       resolve_session t db = Some s ->
       (Assessment.patient_id a = Session.user_id s <->
        Session.role s = "patient") /\
       (Session.role s <> "patient" -> Assessment.patient_id a = "unknown")) /\
    (resolve_session t db = None -> Assessment.patient_id a = "unknown").
Proof.
  intros W T U.
  pose proof (resolve_pid_token t user_id db T U) as R.
  eexists. eexists. eexists. split.
  { eapply predict_run; [|exact R].
    now rewrite (proj2 (truthy_some t) T). }
  cbn [assessment PredictResponse.assessment_id]. split; [reflexivity|].
  split; [reflexivity|]. unfold predict_assessment.
  cbn [Assessment.patient_id]. split.
  - intros s S. rewrite S.
    destruct (wf_resolve_user_id t db s W S) as [n N].
    destruct (String.eqb_spec (Session.role s) "patient") as [P|P].
    + rewrite N, py_or_str_oid. now split.
    + rewrite (py_or_falsy _ _ U). split; [split|reflexivity].
      * intros E. exfalso. rewrite N in E. symmetry in E.
        now apply str_oid_not_unknown in E.
      * intros E. contradiction.
  - intros S. rewrite S. now apply py_or_falsy.
Qed.

(** C8.  [patient_assessments] fails with 401 unless the token resolves to a
    session of role "patient".  When it does, it returns, in every store,
    exactly the assessment documents whose [patient_id] is the session's
    [user_id]: each of them and no other.  In a store the API can be in,
    none of them belongs to "unknown". *)
Theorem patient_assessments_scope token db :
  (patient_assessments token db = (inl (HTTPException 401 "Unauthorized"), db)
   <-> ~ exists s, resolve_session token db = Some s /\
                   Session.role s = "patient") /\
  (forall s,
     resolve_session token db = Some s -> Session.role s = "patient" ->
     exists items,
       patient_assessments token db = (inr items, db) /\
       items =
         filter (fun d => String.eqb (Assessment.patient_id (body d))
                            (Session.user_id s)) (assessment db) /\
       (forall d,
          In d items <->
          In d (assessment db) /\
          Assessment.patient_id (body d) = Session.user_id s) /\
       (forall d pid,
          In d (assessment db) -> Assessment.patient_id (body d) = pid ->
          pid <> Session.user_id s -> ~ In d items) /\
       (db_wf db ->
        forall d, In d items -> Assessment.patient_id (body d) <> "unknown")).
Proof.
  rewrite patient_assessments_run. split.
  - destruct (resolve_session token db) as [s|].
    + destruct (String.eqb_spec (Session.role s) "patient") as [P|P].
      * split; [discriminate|]. intros H. exfalso. apply H. now exists s.
      * split; [|reflexivity]. intros _ (s' & [= <-] & P'). contradiction.
    + split; [|reflexivity]. intros _ (s' & E & _). discriminate.
  - intros s S P. rewrite S, P. simpl String.eqb. cbv iota.
    eexists. split; [reflexivity|]. split; [reflexivity|].
    assert (M : forall d,
              In d (filter
                      (fun d => String.eqb (Assessment.patient_id (body d))
                                  (Session.user_id s)) (assessment db)) <->
              In d (assessment db) /\
              Assessment.patient_id (body d) = Session.user_id s).
    { intros d. rewrite filter_In. now rewrite String.eqb_eq. }
    split; [exact M|]. split.
    + intros d pid I E N F. apply M in F. destruct F as [_ F]. congruence.
    + intros W d F E. apply M in F. destruct F as [_ F].
      destruct (wf_resolve_user_id token db s W S) as [n N].
      rewrite E, N in F. symmetry in F. now apply str_oid_not_unknown in F.
Qed.

(** C9.  [doctor_feedback] fails with 401 unless the token resolves to a
    session of role "doctor".  When it does, it succeeds for every request:
    it appends one feedback document that carries the doctor's id and the
    [assessment_id] as given, and returns that document's identifier, which
    is new in a store the API can be in.  The assessments are neither read
    nor changed: it succeeds just the same when no stored assessment has the
    given id. *)
Theorem doctor_feedback_outcome req token db :
  (doctor_feedback req token db = (inl (HTTPException 401 "Unauthorized"), db)
   <-> ~ exists s, resolve_session token db = Some s /\
                   Session.role s = "doctor") /\
  (forall s,
     resolve_session token db = Some s -> Session.role s = "doctor" ->
     exists db',
       doctor_feedback req token db = (inr (str_oid (next_oid db)), db') /\
       feedback db' =
         (feedback db ++
          [mkDoc (next_oid db)
             (Feedback.mk (Session.user_id s)
                (FeedbackRequest.assessment_id req)
                (FeedbackRequest.message req) (FeedbackRequest.severity req)
                (match FeedbackRequest.recommendations req with
                 | Some rs => rs
                 | None => []
                 end))])%list /\
       assessment db' = assessment db /\
       (db_wf db ->
        forall d, In d (feedback db) ->
                  str_oid (oid d) <> str_oid (next_oid db))) /\
  (forall s,
     resolve_session token db = Some s -> Session.role s = "doctor" ->
     (forall d, In d (assessment db) ->
                str_oid (oid d) <> FeedbackRequest.assessment_id req) ->
     exists fid db', doctor_feedback req token db = (inr fid, db')).
Proof.
  rewrite doctor_feedback_run. split; [|split].
  - destruct (resolve_session token db) as [s|].
    + destruct (String.eqb_spec (Session.role s) "doctor") as [P|P].
      * split; [discriminate|]. intros H. exfalso. apply H. now exists s.
      * split; [|reflexivity]. intros _ (s' & [= <-] & P'). contradiction.
    + split; [|reflexivity]. intros _ (s' & E & _). discriminate.
  - intros s S P. rewrite S, P. simpl String.eqb. cbv iota.
    eexists. split; [reflexivity|]. cbn [feedback assessment].
    split; [reflexivity|]. split; [reflexivity|].
    intros W d I E. apply str_oid_inj in E.
    pose proof (proj1 (Forall_forall _ _) (wf_feedback db W) d I) as L.
    simpl in L. lia.
  - intros s S P _. rewrite S, P. simpl String.eqb. cbv iota. eauto.
Qed.

(** C10.  When a user id is supplied, [predict] stores it verbatim as the
    assessment's [patient_id], whatever the token is (absent, resolving to a
    patient, to a doctor, or to nothing) and whether or not any patient
    document has that id. *)
Theorem predict_user_id_owner req token u db :
  u <> "" ->
  exists resp db' a,
    predict req token (Some u) db = (inr resp, db') /\
    assessment db' = (assessment db ++ [mkDoc (next_oid db) a])%list /\
    Assessment.patient_id a = u.
Proof.
  intros U. apply truthy_some in U.
  eexists. eexists. eexists. split.
  { eapply predict_run; [now rewrite U, orb_true_r|].
    now apply resolve_pid_user_id. }
  cbn [assessment]. split; [reflexivity|].
  unfold predict_assessment. cbn [Assessment.patient_id].
  apply py_or_some. now apply truthy_some.
Qed.

End Claims.


(** * Closed runs *)

Lemma ann_db_wf : db_wf ann_db.
Proof.
  constructor; repeat constructor. now exists 0.
Qed.

(** C1, at a request with mixed answers sent with a user id. *)
Lemma predict_scoring_witness :
  (truthy None || truthy (Some "0")) = true /\
  exists resp db',
    predict mixed_answers None (Some "0") empty_db = (inr resp, db') /\
    (PredictResponse.label resp = "Moderate Risk" <->
     (0.33 <=? PredictResponse.probability resp)%float = true /\
     (PredictResponse.probability resp <? 0.66)%float = true).
Proof.
  split; [reflexivity|].
  destruct (predict_scoring mixed_answers None (Some "0") empty_db eq_refl)
    as (resp & db' & E & _ & _ & _ & M & _).
  exists resp, db'. split; [exact E|exact M].
Defined.

(** C2, for a request sent with a token alone. *)
Lemma predict_examples_witness :
  (truthy (Some "tok-1") || truthy None) = true /\
  (exists aid db',
     predict (PredictionRequest.mk 1 1 1 1 1 None) (Some "tok-1") None ann_db =
     (inr (PredictResponse.mk aid 1 "High Risk"), db')) /\
  (exists aid db',
     predict (PredictionRequest.mk 0 0 0 0 0 None) (Some "tok-1") None ann_db =
     (inr (PredictResponse.mk aid 0 "Low Risk"), db')) /\
  (exists aid db',
     predict (PredictionRequest.mk 0.5 0.5 0.5 0.5 0.5 None) (Some "tok-1")
       None ann_db =
     (inr (PredictResponse.mk aid 0.5 "Moderate Risk"), db')).
Proof.
  split; [reflexivity|].
  exact (predict_examples None (Some "tok-1") None ann_db eq_refl).
Defined.

(** C3 as written fails: the role "Patient" is not one of "patient" and
    "doctor", and the registration goes through (as a patient). *)
Lemma register_role_case_counterexample :
  "Patient" <> "patient" /\ "Patient" <> "doctor" /\
  fst (register example_digest "tok-1"
         (RegisterRequest.mk "Patient" "Ann" "ann@example.org" "pw") empty_db)
  = inr ann_resp.
Proof. repeat split; discriminate. Qed.

(** C4, at Ann's registration in the empty store. *)
Lemma register_token_roundtrip_witness :
  register example_digest "tok-1" ann empty_db = (inr ann_resp, ann_db) /\
  resolve_session "tok-1" empty_db = None /\
  resolve_session "tok-1" ann_db = Some ann_session.
Proof.
  assert (H : register example_digest "tok-1" ann empty_db
              = (inr ann_resp, ann_db)) by reflexivity.
  assert (N : resolve_session "tok-1" empty_db = None) by reflexivity.
  split; [exact H|]. split; [exact N|].
  exact (proj1 (register_token_roundtrip example_digest "tok-1" ann empty_db
                  ann_resp ann_db H N)).
Defined.

(** C5, at Ann's login with the right password: her first session stays. *)
Lemma login_outcome_witness :
  bad_role (lower "Patient") = false /\
  exists db',
    fst (login example_digest "tok-2"
           (LoginRequest.mk "Patient" "ann@example.org" "pw") ann_db)
    = inr (AuthResponse.mk "tok-2" "patient" "0" "Ann" "ann@example.org") /\
    snd (login example_digest "tok-2"
           (LoginRequest.mk "Patient" "ann@example.org" "pw") ann_db) = db' /\
    resolve_session "tok-1" db' = Some ann_session.
Proof.
  split; [reflexivity|].
  destruct (proj2 (proj2 (login_outcome example_digest "tok-2"
                            (LoginRequest.mk "Patient" "ann@example.org" "pw")
                            ann_db eq_refl))
              (PatientUser ann_doc) eq_refl eq_refl eq_refl)
    as (db' & E & _ & _ & K).
  exists db'. rewrite E. split; [reflexivity|]. split; [reflexivity|].
  now apply (K eq_refl).
Defined.

(** C7, at a prediction Ann sends with her token alone. *)
Lemma predict_token_only_owner_witness :
  db_wf ann_db /\ "tok-1" <> "" /\ truthy None = false /\
  exists resp db' a,
    predict mixed_answers (Some "tok-1") None ann_db = (inr resp, db') /\
    assessment db' = [mkDoc 2 a] /\
    Assessment.patient_id a = "0".
Proof.
  assert (T : "tok-1" <> "") by (apply String.eqb_neq; reflexivity).
  split; [exact ann_db_wf|]. split; [exact T|]. split; [reflexivity|].
  destruct (predict_token_only_owner mixed_answers "tok-1" None ann_db
              ann_db_wf T eq_refl)
    as (resp & db' & a & E & A & _ & O & _).
  exists resp, db', a. split; [exact E|]. split; [exact A|].
  now apply (O ann_session eq_refl).
Defined.

(** C10, at a prediction sent with Ann's token and a made-up user id: the
    token is not looked at. *)
Lemma predict_user_id_owner_witness :
  "nobody" <> "" /\
  exists resp db' a,
    predict mixed_answers (Some "tok-1") (Some "nobody") ann_db
    = (inr resp, db') /\
    assessment db' = [mkDoc 2 a] /\
    Assessment.patient_id a = "nobody".
Proof.
  assert (U : "nobody" <> "") by (apply String.eqb_neq; reflexivity).
  split; [exact U|].
  exact (predict_user_id_owner mixed_answers (Some "tok-1") "nobody" ann_db U).
Defined.

(** ** More runs on Ann's store *)

(** The same email again as a patient: 409, and nothing is written. *)
Example register_same_role_conflict :
  register example_digest "tok-2" ann ann_db =
  (inl (HTTPException 409 "Email already registered"), ann_db).
Proof. reflexivity. Qed.

(** The same email as a doctor: accepted. *)
Example register_opposite_role :
  fst (register example_digest "tok-2"
         (RegisterRequest.mk "doctor" "Ann" "ann@example.org" "pw") ann_db)
  = inr (AuthResponse.mk "tok-2" "doctor" "2" "Ann" "ann@example.org").
Proof. reflexivity. Qed.

(** Neither role. *)
Example register_unknown_role :
  register example_digest "tok-2"
    (RegisterRequest.mk "nurse" "Ann" "ann@example.org" "pw") ann_db
  = (inl (HTTPException 400 "Role must be patient or doctor"), ann_db).
Proof. reflexivity. Qed.

(** A wrong password, and an email nobody registered. *)
Example login_wrong_password_run :
  login example_digest "tok-2"
    (LoginRequest.mk "patient" "ann@example.org" "guess") ann_db
  = (inl (HTTPException 401 "Invalid credentials"), ann_db).
Proof. reflexivity. Qed.

Example login_unregistered_run :
  login example_digest "tok-2"
    (LoginRequest.mk "patient" "bob@example.org" "pw") ann_db
  = (inl (HTTPException 401 "Invalid credentials"), ann_db).
Proof. reflexivity. Qed.

(** No identifier at all, and an empty token. *)
Example predict_without_identifier :
  predict mixed_answers None None ann_db
  = (inl (HTTPException 401 "Authentication required"), ann_db) /\
  predict mixed_answers (Some "") None ann_db
  = (inl (HTTPException 401 "Authentication required"), ann_db).
Proof. split; reflexivity. Qed.

(** A token no session carries: the assessment is stored for "unknown". *)
Example predict_with_stray_token :
  predict mixed_answers (Some "stray") None ann_db
  = (inr (PredictResponse.mk "2" 0.52 "Moderate Risk"),
     mkDatabase [ann_doc] []
       [mkDoc 2 (predict_assessment mixed_answers None)] []
       [mkDoc 1 ann_session] 3) /\
  Assessment.patient_id (predict_assessment mixed_answers None) = "unknown".
Proof. split; reflexivity. Qed.

(** In the ward's store Ann sees her two assessments and no other. *)
Example patient_assessments_run_ann :
  fst (patient_assessments "tok-1" ward_db)
  = inr [ mkDoc 2 (predict_assessment mixed_answers (Some "0"));
          mkDoc 5 (predict_assessment (PredictionRequest.mk 1 1 1 1 1 None)
                     (Some "0")) ].
Proof. reflexivity. Qed.

(** A doctor's token is refused there, and so is a stray one. *)
Example patient_assessments_refused :
  fst (patient_assessments "tok-d" ward_db)
  = inl (HTTPException 401 "Unauthorized") /\
  fst (patient_assessments "stray" ward_db)
  = inl (HTTPException 401 "Unauthorized").
Proof. split; reflexivity. Qed.

(** Feedback on an assessment id that no document has. *)
Example doctor_feedback_dangling :
  fst (doctor_feedback
         (FeedbackRequest.mk "no-such-assessment" "see me" None None) "tok-d"
         ward_db)
  = inr "7".
Proof. reflexivity. Qed.

(** A patient's token cannot leave feedback. *)
Example doctor_feedback_refused :
  doctor_feedback (FeedbackRequest.mk "2" "see me" None None) "tok-1" ward_db
  = (inl (HTTPException 401 "Unauthorized"), ward_db).
Proof. reflexivity. Qed.

(** * Beyond the claims: what a served request does to the store *)

Section Runs.
Import StoreFacts.

Variable sha256_hexdigest : string -> string.

(** Every request does one of the six things [write] lists. *)
Lemma step_write db db' : step sha256_hexdigest db db' -> write db db'.
Proof.
  intros S. destruct S as [tok req db|tok req db|req token user_id db
                          |token db|token db|req token db].
  - destruct (bad_role (lower (RegisterRequest.role req))) eqn:B.
    { rewrite register_bad_role by assumption. constructor. }
    destruct (find_user (lower (RegisterRequest.role req))
                (RegisterRequest.email req) db) as [u|] eqn:F.
    { rewrite (register_conflict _ _ _ _ u) by assumption. constructor. }
    destruct (has_surrogate (RegisterRequest.password req)) eqn:N.
    { rewrite register_unencodable by assumption. constructor. }
    apply bad_role_false in B. destruct B as [R|R]; rewrite R in F.
    + rewrite register_patient by assumption.
      exact (write_patient db tok (Patient.mk _ _ _ None None) F).
    + rewrite register_doctor by assumption.
      exact (write_doctor db tok (Doctor.mk _ _ _ None None) F).
  - destruct (bad_role (lower (LoginRequest.role req))) eqn:B.
    { rewrite login_bad_role by assumption. constructor. }
    destruct (find_user (lower (LoginRequest.role req))
                (LoginRequest.email req) db) as [u|] eqn:F.
    + destruct (has_surrogate (LoginRequest.password req)) eqn:N.
      { rewrite (login_unencodable _ _ _ _ u) by assumption. constructor. }
      destruct (String.eqb_spec
                  (sha256_hexdigest (LoginRequest.password req))
                  (user_password_hash u)) as [P|P].
      * rewrite (login_ok _ _ _ _ u) by assumption.
        apply (write_login db tok _ (LoginRequest.email req) u);
          [now apply bad_role_false|assumption].
      * rewrite (login_wrong_password _ _ _ _ u) by assumption. constructor.
    + rewrite login_no_user by assumption. constructor.
  - destruct (truthy token || truthy user_id) eqn:I.
    + destruct (resolve_pid_total token user_id db) as [pid R].
      rewrite (predict_run _ _ _ _ pid) by assumption. constructor.
    + apply orb_false_iff in I. destruct I as [T U].
      rewrite predict_unauthenticated by assumption. constructor.
  - rewrite patient_assessments_run. constructor.
  - rewrite doctor_assessments_run. constructor.
  - rewrite doctor_feedback_run.
    destruct (resolve_session token db) as [s|] eqn:R; [|constructor].
    destruct (String.eqb_spec (Session.role s) "doctor") as [P|P];
      [|constructor].
    now apply (write_feedback db req token s).
Qed.

Lemma write_extends db db' : write db db' -> extends db db'.
Proof.
  intros W. destruct W; constructor; simpl;
    try (now exists []; rewrite app_nil_r);
    try (eexists; reflexivity); lia.
Qed.

Lemma extends_refl db : extends db db.
Proof. constructor; try (now exists []; rewrite app_nil_r); lia. Qed.

Lemma extends_trans db1 db2 db3 :
  extends db1 db2 -> extends db2 db3 -> extends db1 db3.
Proof.
  intros [[l1 P1] [l2 D1] [l3 A1] [l4 F1] [l5 S1] N1]
         [[m1 P2] [m2 D2] [m3 A2] [m4 F2] [m5 S2] N2].
  constructor; try lia.
  - exists (l1 ++ m1)%list. now rewrite P2, P1, app_assoc.
  - exists (l2 ++ m2)%list. now rewrite D2, D1, app_assoc.
  - exists (l3 ++ m3)%list. now rewrite A2, A1, app_assoc.
  - exists (l4 ++ m4)%list. now rewrite F2, F1, app_assoc.
  - exists (l5 ++ m5)%list. now rewrite S2, S1, app_assoc.
Qed.

(** A session found stays the one found when sessions are added. *)
Lemma resolve_session_extends tok s db db' :
  extends db db' -> resolve_session tok db = Some s ->
  resolve_session tok db' = Some s.
Proof.
  intros E. destruct (ext_session db db' E) as [l L].
  rewrite !resolve_session_find, L.
  destruct (find _ (session db)) as [d|] eqn:F; [|discriminate].
  now rewrite (find_app_some _ _ _ _ F).
Qed.

End Runs.

(** * Beyond the claims: the handlers one by one *)

Section Effects.
Import StoreFacts.

Variable sha256_hexdigest : string -> string.

(** The five ways [register] can end. *)
Lemma register_effect tok req db :
  register sha256_hexdigest tok req db =
    (inl (HTTPException 400 "Role must be patient or doctor"), db) \/
  register sha256_hexdigest tok req db =
    (inl (HTTPException 409 "Email already registered"), db) \/
  register sha256_hexdigest tok req db = (inl UnicodeEncodeError, db) \/
  (lower (RegisterRequest.role req) = "patient" /\
   find_user "patient" (RegisterRequest.email req) db = None /\
   register sha256_hexdigest tok req db =
   (inr (AuthResponse.mk tok "patient" (str_oid (next_oid db))
           (RegisterRequest.name req) (RegisterRequest.email req)),
    mkDatabase
      (patient db ++
       [mkDoc (next_oid db)
          (Patient.mk (RegisterRequest.name req) (RegisterRequest.email req)
             (sha256_hexdigest (RegisterRequest.password req)) None None)])
      (doctor db) (assessment db) (feedback db)
      (session db ++
       [mkDoc (S (next_oid db))
          (Session.mk (str_oid (next_oid db)) "patient" tok)])
      (S (S (next_oid db))))) \/
  (lower (RegisterRequest.role req) = "doctor" /\
   find_user "doctor" (RegisterRequest.email req) db = None /\
   register sha256_hexdigest tok req db =
   (inr (AuthResponse.mk tok "doctor" (str_oid (next_oid db))
           (RegisterRequest.name req) (RegisterRequest.email req)),
    mkDatabase (patient db)
      (doctor db ++
       [mkDoc (next_oid db)
          (Doctor.mk (RegisterRequest.name req) (RegisterRequest.email req)
             (sha256_hexdigest (RegisterRequest.password req)) None None)])
      (assessment db) (feedback db)
      (session db ++
       [mkDoc (S (next_oid db))
          (Session.mk (str_oid (next_oid db)) "doctor" tok)])
      (S (S (next_oid db))))).
Proof.
  destruct (bad_role (lower (RegisterRequest.role req))) eqn:B.
  { left. now apply register_bad_role. }
  destruct (find_user (lower (RegisterRequest.role req))
              (RegisterRequest.email req) db) as [u|] eqn:F.
  { right. left. now apply (register_conflict _ _ _ _ u). }
  destruct (has_surrogate (RegisterRequest.password req)) eqn:N.
  { right. right. left. now apply register_unencodable. }
  apply bad_role_false in B. destruct B as [R|R]; rewrite R in F.
  - right. right. right. left. repeat split; auto.
    now apply register_patient.
  - right. right. right. right. repeat split; auto.
    now apply register_doctor.
Qed.

(** The four ways [login] can end. *)
Lemma login_effect tok req db :
  login sha256_hexdigest tok req db =
    (inl (HTTPException 400 "Role must be patient or doctor"), db) \/
  login sha256_hexdigest tok req db =
    (inl (HTTPException 401 "Invalid credentials"), db) \/
  login sha256_hexdigest tok req db = (inl UnicodeEncodeError, db) \/
  (exists u,
     find_user (lower (LoginRequest.role req)) (LoginRequest.email req) db
       = Some u /\
     login sha256_hexdigest tok req db =
     (inr (AuthResponse.mk tok (lower (LoginRequest.role req))
             (str_oid (user_oid u)) (user_name u) (user_email u)),
      mkDatabase (patient db) (doctor db) (assessment db) (feedback db)
        (session db ++
         [mkDoc (next_oid db)
            (Session.mk (str_oid (user_oid u))
               (lower (LoginRequest.role req)) tok)])
        (S (next_oid db)))).
Proof.
  destruct (bad_role (lower (LoginRequest.role req))) eqn:B.
  { left. now apply login_bad_role. }
  destruct (find_user (lower (LoginRequest.role req))
              (LoginRequest.email req) db) as [u|] eqn:F.
  - destruct (has_surrogate (LoginRequest.password req)) eqn:N.
    { right. right. left. now apply (login_unencodable _ _ _ _ u). }
    destruct (String.eqb_spec
                (sha256_hexdigest (LoginRequest.password req))
                (user_password_hash u)) as [P|P].
    + right. right. right. exists u. split; [reflexivity|].
      now apply login_ok.
    + right. left. now apply (login_wrong_password _ _ _ _ u).
  - right. left. now apply login_no_user.
Qed.

(** The two ways [predict] can end. *)
Lemma predict_effect req token user_id db :
  predict req token user_id db =
    (inl (HTTPException 401 "Authentication required"), db) \/
  (exists pid,
     predict req token user_id db =
     (inr (PredictResponse.mk (str_oid (next_oid db))
             (Scoring.probability req) (Scoring.label req)),
      mkDatabase (patient db) (doctor db)
        (assessment db ++ [mkDoc (next_oid db) (predict_assessment req pid)])
        (feedback db) (session db) (S (next_oid db)))).
Proof.
  destruct (truthy token || truthy user_id) eqn:I.
  - right. destruct (resolve_pid_total token user_id db) as [pid R].
    exists pid. now apply predict_run.
  - left. apply orb_false_iff in I. destruct I as [T U].
    now apply predict_unauthenticated.
Qed.

(** The two ways [doctor_feedback] can end. *)
Lemma doctor_feedback_effect req token db :
  doctor_feedback req token db = (inl (HTTPException 401 "Unauthorized"), db)
  \/
  (exists s,
     resolve_session token db = Some s /\ Session.role s = "doctor" /\
     doctor_feedback req token db =
     (inr (str_oid (next_oid db)),
      mkDatabase (patient db) (doctor db) (assessment db)
        (feedback db ++
         [mkDoc (next_oid db) (feedback_of req (Session.user_id s))])
        (session db) (S (next_oid db)))).
Proof.
  rewrite doctor_feedback_run.
  destruct (resolve_session token db) as [s|] eqn:R; [|now left].
  destruct (String.eqb_spec (Session.role s) "doctor") as [P|P];
    [|now left].
  right. now exists s.
Qed.

(** X1.  [doctor_assessments] fails with 401 unless the token resolves to a
    session of role "doctor"; when it does, it returns the assessment
    documents of the store, all of them and each once (those recorded for
    "unknown" too), whatever order they come in, and leaves the store as it
    was. *)
Theorem doctor_assessments_outcome token db :
  (doctor_assessments token db = (inl (HTTPException 401 "Unauthorized"), db)
   <-> ~ exists s, resolve_session token db = Some s /\
                   Session.role s = "doctor") /\
  (forall s,
     resolve_session token db = Some s -> Session.role s = "doctor" ->
     exists items,
       doctor_assessments token db = (inr items, db) /\
       Permutation items (assessment db) /\
       (forall d, In d items <-> In d (assessment db))).
Proof.
  rewrite doctor_assessments_run. split.
  - destruct (resolve_session token db) as [s|].
    + destruct (String.eqb_spec (Session.role s) "doctor") as [P|P].
      * split; [discriminate|]. intros H. exfalso. apply H. now exists s.
      * split; [|reflexivity]. intros _ (s' & [= <-] & P'). contradiction.
    + split; [|reflexivity]. intros _ (s' & E & _). discriminate.
  - intros s S P. rewrite S, P. simpl String.eqb. cbv iota.
    exists (assessment db). split; [reflexivity|].
    split; [apply Permutation_refl|]. intros d. reflexivity.
Qed.

(** X2.  The role guards keep the two sides apart: no token is accepted both
    by the patient's listing and by a doctor's handler, and the two doctor
    handlers accept exactly the same tokens. *)
Theorem role_guards_disjoint req token db :
  ~ ((exists items, fst (patient_assessments token db) = inr items) /\
     (exists items, fst (doctor_assessments token db) = inr items)) /\
  ~ ((exists items, fst (patient_assessments token db) = inr items) /\
     (exists fid, fst (doctor_feedback req token db) = inr fid)) /\
  ((exists fid, fst (doctor_feedback req token db) = inr fid) <->
   (exists items, fst (doctor_assessments token db) = inr items)).
Proof.
  rewrite patient_assessments_run, doctor_assessments_run,
    doctor_feedback_run.
  destruct (resolve_session token db) as [s|]; simpl.
  - destruct (String.eqb_spec (Session.role s) "patient") as [P|P];
      destruct (String.eqb_spec (Session.role s) "doctor") as [D|D];
      simpl; try (rewrite P in D; discriminate);
      repeat split;
      try (intros [[x X] [y Y]]; discriminate);
      try (intros [x X]; discriminate); eauto.
  - repeat split;
      try (intros [[x X] [y Y]]; discriminate);
      try (intros [x X]; discriminate).
Qed.

(** X3.  A request that the handler itself refuses has written nothing:
    whenever [register], [login], [predict] or [doctor_feedback] ends in an
    [HTTPException] (400, 401, 409), or [register] or [login] ends in the
    [UnicodeEncodeError] of a password that cannot be encoded, the store is
    the one it started from: each of these raises comes before the handler's
    first write.  (A failure of the store itself is another matter, and is
    not modelled.) *)
Theorem refused_requests_write_nothing
    tok rreq lreq preq token user_id freq ftoken db :
  (forall code detail,
     fst (register sha256_hexdigest tok rreq db)
       = inl (HTTPException code detail) ->
     snd (register sha256_hexdigest tok rreq db) = db) /\
  (fst (register sha256_hexdigest tok rreq db) = inl UnicodeEncodeError ->
   snd (register sha256_hexdigest tok rreq db) = db) /\
  (forall code detail,
     fst (login sha256_hexdigest tok lreq db)
       = inl (HTTPException code detail) ->
     snd (login sha256_hexdigest tok lreq db) = db) /\
  (fst (login sha256_hexdigest tok lreq db) = inl UnicodeEncodeError ->
   snd (login sha256_hexdigest tok lreq db) = db) /\
  (forall code detail,
     fst (predict preq token user_id db) = inl (HTTPException code detail) ->
     snd (predict preq token user_id db) = db) /\
  (forall code detail,
     fst (doctor_feedback freq ftoken db)
       = inl (HTTPException code detail) ->
     snd (doctor_feedback freq ftoken db) = db).
Proof.
  split; [|split; [|split; [|split; [|split]]]]; try intros code detail.
  - destruct (register_effect tok rreq db)
      as [E|[E|[E|[(_ & _ & E)|(_ & _ & E)]]]]; rewrite E; simpl;
      try reflexivity; discriminate.
  - destruct (register_effect tok rreq db)
      as [E|[E|[E|[(_ & _ & E)|(_ & _ & E)]]]]; rewrite E; simpl;
      try reflexivity; discriminate.
  - destruct (login_effect tok lreq db) as [E|[E|[E|(u & _ & E)]]];
      rewrite E; simpl; try reflexivity; discriminate.
  - destruct (login_effect tok lreq db) as [E|[E|[E|(u & _ & E)]]];
      rewrite E; simpl; try reflexivity; discriminate.
  - destruct (predict_effect preq token user_id db) as [E|(pid & E)];
      rewrite E; simpl; try reflexivity; discriminate.
  - destruct (doctor_feedback_effect freq ftoken db) as [E|(s & _ & _ & E)];
      rewrite E; simpl; try reflexivity; discriminate.
Qed.

(** X4.  Each handler writes to its own collections only: [register] leaves
    assessments and feedback alone; [login] touches nothing but the sessions;
    [predict] nothing but the assessments; [doctor_feedback] nothing but the
    feedback (in particular it never marks the assessment as reviewed); the
    two listings touch nothing. *)
Theorem handlers_write_their_own
    tok rreq lreq preq token user_id freq ftoken db :
  (assessment (snd (register sha256_hexdigest tok rreq db)) = assessment db /\
   feedback (snd (register sha256_hexdigest tok rreq db)) = feedback db) /\
  (patient (snd (login sha256_hexdigest tok lreq db)) = patient db /\
   doctor (snd (login sha256_hexdigest tok lreq db)) = doctor db /\
   assessment (snd (login sha256_hexdigest tok lreq db)) = assessment db /\
   feedback (snd (login sha256_hexdigest tok lreq db)) = feedback db) /\
  (patient (snd (predict preq token user_id db)) = patient db /\
   doctor (snd (predict preq token user_id db)) = doctor db /\
   feedback (snd (predict preq token user_id db)) = feedback db /\
   session (snd (predict preq token user_id db)) = session db) /\
  (patient (snd (doctor_feedback freq ftoken db)) = patient db /\
   doctor (snd (doctor_feedback freq ftoken db)) = doctor db /\
   assessment (snd (doctor_feedback freq ftoken db)) = assessment db /\
   session (snd (doctor_feedback freq ftoken db)) = session db) /\
  snd (patient_assessments ftoken db) = db /\
  snd (doctor_assessments ftoken db) = db.
Proof.
  split; [|split; [|split; [|split; [|split]]]].
  - destruct (register_effect tok rreq db)
      as [E|[E|[E|[(_ & _ & E)|(_ & _ & E)]]]]; rewrite E; now split.
  - destruct (login_effect tok lreq db) as [E|[E|[E|(u & _ & E)]]];
      rewrite E; now repeat split.
  - destruct (predict_effect preq token user_id db) as [E|(pid & E)];
      rewrite E; now repeat split.
  - destruct (doctor_feedback_effect freq ftoken db) as [E|(s & _ & _ & E)];
      rewrite E; now repeat split.
  - now rewrite patient_assessments_run.
  - now rewrite doctor_assessments_run.
Qed.

End Effects.

(** * Beyond the claims: what holds along every run *)

Section RunInvariants.
Import StoreFacts.

Variable sha256_hexdigest : string -> string.

Lemma NoDup_snoc {A} (l : list A) (a : A) :
  NoDup l -> ~ In a l -> NoDup (l ++ [a]).
Proof.
  induction 1 as [|b l N _ IH]; simpl; intros H.
  - repeat constructor. auto.
  - constructor.
    + rewrite in_app_iff. simpl. intros [I|[E|[]]]; [contradiction|].
      apply H. now left.
    + apply IH. intros I. apply H. now right.
Qed.

Lemma find_user_patient_new email db :
  find_user "patient" email db = None ->
  ~ In email (map (fun d => Patient.email (body d)) (patient db)).
Proof.
  intros F I. apply in_map_iff in I. destruct I as (d & E & I).
  apply find_user_none_patient in F. apply F. now exists d.
Qed.

Lemma find_user_doctor_new email db :
  find_user "doctor" email db = None ->
  ~ In email (map (fun d => Doctor.email (body d)) (doctor db)).
Proof.
  intros F I. apply in_map_iff in I. destruct I as (d & E & I).
  apply find_user_none_doctor in F. apply F. now exists d.
Qed.

Lemma write_emails_unique db db' :
  write db db' ->
  NoDup (map (fun d => Patient.email (body d)) (patient db)) /\
  NoDup (map (fun d => Doctor.email (body d)) (doctor db)) ->
  NoDup (map (fun d => Patient.email (body d)) (patient db')) /\
  NoDup (map (fun d => Doctor.email (body d)) (doctor db')).
Proof.
  intros W [P D]. destruct W; simpl; try (now split).
  - split; [|assumption]. rewrite map_app. simpl.
    apply NoDup_snoc; [assumption|now apply find_user_patient_new].
  - split; [assumption|]. rewrite map_app. simpl.
    apply NoDup_snoc; [assumption|now apply find_user_doctor_new].
Qed.

Lemma session_refers_extends db db' s :
  extends db db' -> session_refers db s -> session_refers db' s.
Proof.
  intros E [[R (d & I & U)]|[R (d & I & U)]].
  - left. split; [assumption|]. exists d. split; [|assumption].
    destruct (ext_patient db db' E) as [l ->]. apply in_or_app. now left.
  - right. split; [assumption|]. exists d. split; [|assumption].
    destruct (ext_doctor db db' E) as [l ->]. apply in_or_app. now left.
Qed.

Lemma find_user_refers role email db u :
  role = "patient" \/ role = "doctor" ->
  find_user role email db = Some u ->
  session_refers db (Session.mk (str_oid (user_oid u)) role "").
Proof.
  unfold find_user. intros [-> | ->] F; simpl in F;
    destruct (find _ _) as [d|] eqn:G; try discriminate;
    injection F as <-; apply find_some in G; destruct G as [I _].
  - left. split; [reflexivity|]. now exists d.
  - right. split; [reflexivity|]. now exists d.
Qed.

Lemma write_sessions_refer db db' :
  write db db' ->
  Forall (fun d => session_refers db (body d)) (session db) ->
  Forall (fun d => session_refers db' (body d)) (session db').
Proof.
  intros W H. pose proof (write_extends db db' W) as E.
  assert (K : Forall (fun d => session_refers db' (body d)) (session db)).
  { eapply Forall_impl; [|exact H]. intros d. now apply session_refers_extends. }
  destruct W; simpl in *; try assumption.
  - apply Forall_app. split; [assumption|]. constructor; [|constructor]. left.
    split; [reflexivity|]. exists (mkDoc (next_oid db) p).
    split; [|reflexivity]. apply in_or_app. right. now left.
  - apply Forall_app. split; [assumption|]. constructor; [|constructor]. right.
    split; [reflexivity|]. exists (mkDoc (next_oid db) p).
    split; [|reflexivity]. apply in_or_app. right. now left.
  - apply Forall_app. split; [assumption|]. constructor; [|constructor].
    match goal with
    | R : _ \/ _, F : find_user _ _ _ = Some _ |- _ =>
        destruct (find_user_refers _ _ _ _ R F) as [[X Y]|[X Y]];
          [left|right]; now split
    end.
Qed.

Lemma py_or_nonempty s d : d <> "" -> py_or s d <> "".
Proof.
  intros D. unfold py_or. destruct s as [s|]; [|assumption].
  now destruct (String.eqb_spec s "").
Qed.

Lemma predict_assessment_sound req pid :
  assessment_sound (predict_assessment req pid).
Proof.
  constructor; simpl; try reflexivity; try discriminate.
  - apply ScoringFacts.probability_in_unit_interval.
  - apply py_or_nonempty. discriminate.
Qed.

Lemma write_assessments_sound db db' :
  write db db' ->
  Forall (fun d => assessment_sound (body d)) (assessment db) ->
  Forall (fun d => assessment_sound (body d)) (assessment db').
Proof.
  intros W H. destruct W; simpl; try assumption.
  apply Forall_app. split; [assumption|]. constructor; [|constructor].
  apply predict_assessment_sound.
Qed.

Lemma feedback_refers_extends db db' f :
  extends db db' -> feedback_refers db f -> feedback_refers db' f.
Proof.
  intros E (d & I & U). exists d. split; [|assumption].
  destruct (ext_doctor db db' E) as [l ->]. apply in_or_app. now left.
Qed.

Lemma write_feedback_refers db db' :
  write db db' ->
  Forall (fun d => session_refers db (body d)) (session db) ->
  Forall (fun d => feedback_refers db (body d)) (feedback db) ->
  Forall (fun d => feedback_refers db' (body d)) (feedback db').
Proof.
  intros W S H. pose proof (write_extends db db' W) as E.
  assert (K : Forall (fun d => feedback_refers db' (body d)) (feedback db)).
  { eapply Forall_impl; [|exact H]. intros d.
    now apply feedback_refers_extends. }
  destruct W as [db|db tok p F|db tok p F|db tok role email u V F|db req pid
                |db req token s R D]; simpl; try assumption.
  apply Forall_app. split; [assumption|]. constructor; [|constructor].
  apply resolve_session_some in R. destruct R as (d & I & B & _).
  pose proof (proj1 (Forall_forall _ _) S d I) as Q. cbv beta in Q.
  rewrite B in Q.
  destruct Q as [[P _]|[_ (x & X & Y)]].
  - rewrite P in D. discriminate.
  - exists x. split; [|exact Y]. exact X.
Qed.

(** X5.  The store is append-only: after any number of requests every
    collection still holds each document it held, unchanged and at the same
    place, possibly followed by new ones; nothing is ever updated or
    deleted. *)
Theorem runs_append_only db db' :
  steps sha256_hexdigest db db' -> extends db db'.
Proof.
  induction 1 as [db|db db1 db2 _ IH S]; [apply extends_refl|].
  apply (extends_trans db db1 db2 IH).
  apply write_extends. now apply (step_write sha256_hexdigest).
Qed.

(** X6.  Sessions never expire and are never revoked: a token that resolves
    to a session resolves to the same session after any number of further
    requests, as long as no other session of the later store carries the
    same token. *)
Theorem tokens_never_expire tok s db db' :
  steps sha256_hexdigest db db' ->
  resolve_session tok db = Some s ->
  (forall d1 d2,
     In d1 (session db') -> In d2 (session db') ->
     Session.token (body d1) = tok -> Session.token (body d2) = tok ->
     d1 = d2) ->
  resolve_session tok db' = Some s /\
  (forall d, In d (session db') -> Session.token (body d) = tok ->
             body d = s).
Proof.
  intros R S U.
  assert (E : extends db db').
  { clear S U. induction R as [db|db db1 db2 _ IH S]; [apply extends_refl|].
    apply (extends_trans db db1 db2 IH).
    apply write_extends. now apply (step_write sha256_hexdigest). }
  pose proof (resolve_session_extends tok s db db' E S) as K.
  split; [exact K|]. intros d I T.
  apply resolve_session_some in K. destruct K as (d0 & I0 & B & T0).
  rewrite <- B in T0. now rewrite (U d d0 I I0 T T0).
Qed.

(** X7.  In every store the API can be in, an email is registered at most
    once per role: no two patient documents share an email, and no two
    doctor documents do. *)
Theorem reachable_emails_unique db :
  reachable sha256_hexdigest db ->
  NoDup (map (fun d => Patient.email (body d)) (patient db)) /\
  NoDup (map (fun d => Doctor.email (body d)) (doctor db)).
Proof.
  induction 1 as [|db db' _ IH S]; [split; constructor|].
  apply (write_emails_unique db db'); [|exact IH].
  now apply (step_write sha256_hexdigest).
Qed.

(** X8.  In every store the API can be in, each session has the role
    "patient" or "doctor", and its [user_id] is the identifier of a user
    document in the collection of that role. *)
Theorem reachable_sessions_refer db :
  reachable sha256_hexdigest db ->
  forall d, In d (session db) -> session_refers db (body d).
Proof.
  intros R. apply Forall_forall.
  induction R as [|db db' _ IH S]; [constructor|].
  apply (write_sessions_refer db db'); [|exact IH].
  now apply (step_write sha256_hexdigest).
Qed.

(** X9.  In every store the API can be in, each assessment has [score] equal
    to [probability], both within [[0, 1]], the label the thresholds give
    that probability, a non-empty [patient_id], notes, the five questionnaire
    keys as its features, and neither [reviewed_by] nor [feedback_id] set:
    no handler ever writes the two back-references. *)
Theorem reachable_assessments_sound db :
  reachable sha256_hexdigest db ->
  forall d, In d (assessment db) -> assessment_sound (body d).
Proof.
  intros R. apply Forall_forall.
  induction R as [|db db' _ IH S]; [constructor|].
  apply (write_assessments_sound db db'); [|exact IH].
  now apply (step_write sha256_hexdigest).
Qed.

(** X10.  In every store the API can be in, the [doctor_id] of each feedback
    is the identifier of a doctor document: only registered doctors have
    left feedback. *)
Theorem reachable_feedback_refers db :
  reachable sha256_hexdigest db ->
  forall d, In d (feedback db) -> feedback_refers db (body d).
Proof.
  intros R.
  assert (H : Forall (fun d => session_refers db (body d)) (session db) /\
              Forall (fun d => feedback_refers db (body d)) (feedback db)).
  { induction R as [|db db' _ [IS IF] S]; [split; constructor|].
    pose proof (step_write sha256_hexdigest db db' S) as W. split.
    - now apply (write_sessions_refer db db').
    - now apply (write_feedback_refers db db'). }
  apply Forall_forall. exact (proj2 H).
Qed.

End RunInvariants.

(** * Beyond the claims: requests one after the other *)

Section Compositions.
Import StoreFacts.

Variable sha256_hexdigest : string -> string.

Lemma find_snoc_new {A} (f : A -> bool) (l : list A) (a : A) :
  find f l = None -> f a = true -> find f (l ++ [a]) = Some a.
Proof.
  intros N T. rewrite (find_app_none _ _ _ N). simpl. now rewrite T.
Qed.

Lemma option_map_none {A B} (f : A -> B) (o : option A) :
  option_map f o = None -> o = None.
Proof. now destruct o. Qed.

(** The user a registration has just stored is the one a lookup of the
    email finds. *)
Lemma registered_is_found tok req db resp db1 :
  register sha256_hexdigest tok req db = (inr resp, db1) ->
  exists u,
    find_user (lower (RegisterRequest.role req)) (RegisterRequest.email req)
      db1 = Some u /\
    bad_role (lower (RegisterRequest.role req)) = false /\
    AuthResponse.role resp = lower (RegisterRequest.role req) /\
    AuthResponse.user_id resp = str_oid (user_oid u) /\
    user_name u = RegisterRequest.name req /\
    user_email u = RegisterRequest.email req /\
    user_password_hash u = sha256_hexdigest (RegisterRequest.password req).
Proof.
  intros H.
  destruct (register_effect sha256_hexdigest tok req db)
    as [E|[E|[E|[(R & F & E)|(R & F & E)]]]]; rewrite E in H;
    try discriminate; injection H as <- <-; rewrite R.
  - eexists. split.
    { unfold find_user in *. simpl in *. apply option_map_none in F.
      rewrite (find_snoc_new _ _ _ F); [reflexivity|]. apply String.eqb_refl. }
    now repeat split.
  - eexists. split.
    { unfold find_user in *. simpl in *. apply option_map_none in F.
      rewrite (find_snoc_new _ _ _ F); [reflexivity|]. apply String.eqb_refl. }
    now repeat split.
Qed.

(** The owner [predict] works out depends on the sessions alone. *)
Lemma resolve_pid_sessions token user_id db db1 pid :
  session db1 = session db ->
  resolve_pid token user_id db = (inr pid, db) ->
  resolve_pid token user_id db1 = (inr pid, db1).
Proof.
  intros S R. destruct (truthy user_id) eqn:U.
  - rewrite resolve_pid_user_id in * by assumption. congruence.
  - destruct token as [t|];
      [|rewrite resolve_pid_no_token in * by reflexivity; congruence].
    destruct (truthy (Some t)) eqn:T.
    + apply truthy_some in T. rewrite resolve_pid_token in * by assumption.
      rewrite resolve_session_find in *. rewrite S. congruence.
    + rewrite resolve_pid_no_token in * by assumption. congruence.
Qed.

(** X11.  Registration and login fit together: after a successful
    registration, a login with the same email and the same role (in any
    letter case) and a password that can be encoded succeeds exactly when
    the password has the digest of the registered one; it answers with the
    [user_id] and role of the registration and the name and email stored by
    it.  With a password of another digest it is refused with 401, and with
    a password that cannot be encoded it ends in [UnicodeEncodeError]; in
    both cases it writes nothing. *)
Theorem register_then_login tok req db resp db1 role' tok' pw' :
  register sha256_hexdigest tok req db = (inr resp, db1) ->
  lower role' = lower (RegisterRequest.role req) ->
  (has_surrogate pw' = false ->
   sha256_hexdigest pw' = sha256_hexdigest (RegisterRequest.password req) ->
   exists db2,
     login sha256_hexdigest tok'
       (LoginRequest.mk role' (RegisterRequest.email req) pw') db1 =
     (inr (AuthResponse.mk tok' (AuthResponse.role resp)
             (AuthResponse.user_id resp) (RegisterRequest.name req)
             (RegisterRequest.email req)), db2)) /\
  (has_surrogate pw' = false ->
   sha256_hexdigest pw' <> sha256_hexdigest (RegisterRequest.password req) ->
   login sha256_hexdigest tok'
     (LoginRequest.mk role' (RegisterRequest.email req) pw') db1 =
   (inl (HTTPException 401 "Invalid credentials"), db1)) /\
  (has_surrogate pw' = true ->
   login sha256_hexdigest tok'
     (LoginRequest.mk role' (RegisterRequest.email req) pw') db1 =
   (inl UnicodeEncodeError, db1)).
Proof.
  intros H L.
  destruct (registered_is_found tok req db resp db1 H)
    as (u & F & B & R & U & N & M & P).
  rewrite <- L in F, B. split; [|split].
  - intros E D. eexists.
    rewrite (login_ok sha256_hexdigest tok' _ db1 u); simpl; auto;
      [|congruence].
    rewrite R, U, N, M, L. reflexivity.
  - intros E D.
    apply (login_wrong_password sha256_hexdigest tok' _ db1 u); simpl; auto.
    congruence.
  - intros E.
    now apply (login_unencodable sha256_hexdigest tok' _ db1 u).
Qed.

(** X12.  After a successful registration, registering the same email again
    under the same role (in any letter case) is refused with 409, whatever
    the name, the password and the token drawn, and writes nothing. *)
Theorem register_twice_conflict tok req db resp db1 tok' role' name' pw' :
  register sha256_hexdigest tok req db = (inr resp, db1) ->
  lower role' = lower (RegisterRequest.role req) ->
  register sha256_hexdigest tok'
    (RegisterRequest.mk role' name' (RegisterRequest.email req) pw') db1 =
  (inl (HTTPException 409 "Email already registered"), db1).
Proof.
  intros H L.
  destruct (registered_is_found tok req db resp db1 H) as (u & F & B & _).
  rewrite <- L in F, B.
  now apply (register_conflict sha256_hexdigest tok' _ db1 u).
Qed.

(** X13.  An assessment a patient sends with their token alone shows up in
    their own listing: the listing after the [predict] holds the documents
    of the listing before it and the new document, each once and nothing
    else, and the new document carries the identifier, the probability and
    the label of the response. *)
Theorem predict_then_listed req t user_id db s :
  db_wf db -> t <> "" -> truthy user_id = false ->
  resolve_session t db = Some s -> Session.role s = "patient" ->
  exists resp db' old new a,
    predict req (Some t) user_id db = (inr resp, db') /\
    patient_assessments t db = (inr old, db) /\
    patient_assessments t db' = (inr new, db') /\
    Permutation new (a :: old) /\
    (forall d, In d new <-> d = a \/ In d old) /\
    str_oid (oid a) = PredictResponse.assessment_id resp /\
    Assessment.probability (body a) = PredictResponse.probability resp /\
    Assessment.result_label (body a) = PredictResponse.label resp.
Proof.
  intros W T U RS P.
  pose proof (resolve_pid_token t user_id db T U) as R.
  rewrite RS, P in R. simpl String.eqb in R. cbv iota in R.
  assert (I : (truthy (Some t) || truthy user_id) = true)
    by now rewrite (proj2 (truthy_some t) T).
  destruct (wf_resolve_user_id t db s W RS) as [n N].
  set (old := filter (fun d => String.eqb (Assessment.patient_id (body d))
                                 (Session.user_id s)) (assessment db)).
  set (a := mkDoc (next_oid db)
              (predict_assessment req (Some (Session.user_id s)))).
  exists (PredictResponse.mk (str_oid (next_oid db))
            (Scoring.probability req) (Scoring.label req)).
  exists (mkDatabase (patient db) (doctor db) (assessment db ++ [a])
            (feedback db) (session db) (S (next_oid db))).
  exists old, (old ++ [a])%list, a.
  split; [exact (predict_run req (Some t) user_id db _ I R)|].
  split; [|split; [|split; [|split; [|now repeat split]]]].
  - rewrite patient_assessments_run, RS, P. reflexivity.
  - rewrite patient_assessments_run.
    change (resolve_session t _) with (resolve_session t db).
    rewrite RS, P. simpl String.eqb. cbv iota. cbn [assessment].
    rewrite filter_app. f_equal. f_equal. f_equal. unfold a.
    cbn [filter body predict_assessment Assessment.patient_id].
    now rewrite N, py_or_str_oid, String.eqb_refl.
  - apply Permutation_sym, Permutation_cons_append.
  - intros d. rewrite in_app_iff. simpl. split.
    + intros [H|[H|[]]]; [now right|now left].
    + intros [H|H]; [right; now left|now left].
Qed.

(** X14.  [predict] does not deduplicate: the same request sent twice gets
    the same probability and the same label, two different assessment ids,
    and two stored documents with the same contents. *)
Theorem predict_twice req token user_id db :
  (truthy token || truthy user_id) = true ->
  exists r1 db1 r2 db2 a,
    predict req token user_id db = (inr r1, db1) /\
    predict req token user_id db1 = (inr r2, db2) /\
    PredictResponse.probability r1 = PredictResponse.probability r2 /\
    PredictResponse.label r1 = PredictResponse.label r2 /\
    PredictResponse.assessment_id r1 <> PredictResponse.assessment_id r2 /\
    assessment db2 =
      (assessment db ++
       [mkDoc (next_oid db) a; mkDoc (S (next_oid db)) a])%list.
Proof.
  intros I. destruct (resolve_pid_total token user_id db) as [pid R].
  pose proof (predict_run req token user_id db pid I R) as E1.
  eexists. eexists. eexists. eexists. eexists. split; [exact E1|]. split.
  { apply (predict_run req token user_id _ pid I).
    now apply (resolve_pid_sessions token user_id db). }
  cbn [PredictResponse.probability PredictResponse.label
       PredictResponse.assessment_id assessment next_oid].
  repeat split.
  - intros E. apply str_oid_inj in E. lia.
  - now rewrite <- app_assoc.
Qed.

End Compositions.

(** * Beyond the claims: the scoring at its edges *)

Module ScoringEdges.
Import FloatOrder ScoringFacts.
#[local] Open Scope float_scope.

Lemma is_nan_true x : is_nan x = true <-> Prim2SF x = S754_nan.
Proof.
  split.
  - intros H. destruct (Prim2SF x) eqn:E; try reflexivity;
      assert (N : is_nan x = false) by (apply is_nan_false; congruence);
      congruence.
  - intros E. destruct (is_nan x) eqn:N; [reflexivity|].
    apply is_nan_false in N. contradiction.
Qed.

(** NaN is absorbing for the two operations of the scoring loop. *)
Lemma nan_mul_l x y : is_nan x = true -> is_nan (x * y) = true.
Proof.
  rewrite !is_nan_true, mul_spec. intros ->. reflexivity.
Qed.

Lemma nan_add_l x y : is_nan x = true -> is_nan (x + y) = true.
Proof.
  rewrite !is_nan_true, add_spec. intros ->. reflexivity.
Qed.

Lemma nan_add_r x y : is_nan y = true -> is_nan (x + y) = true.
Proof.
  rewrite !is_nan_true, add_spec. intros ->. unfold SF64add.
  now destruct (Prim2SF x).
Qed.

(** X15.  A NaN among the five answers is scored as the highest risk: the
    total is NaN, [min(1.0, total)] keeps [1.0], and the request gets the
    probability 1.0 and the label "High Risk". *)
Theorem nan_answer_scores_high req :
  (is_nan (PredictionRequest.eye_contact req)
   || is_nan (PredictionRequest.speech_delay req)
   || is_nan (PredictionRequest.repetitive_behavior req)
   || is_nan (PredictionRequest.sensory_sensitivity req)
   || is_nan (PredictionRequest.social_interaction_difficulty req)) = true ->
  is_nan (Scoring.total req) = true /\
  Scoring.probability req = 1 /\
  Scoring.label req = "High Risk"%string.
Proof.
  intros H.
  assert (N : is_nan (Scoring.total req) = true).
  { rewrite total_unfold.
    repeat (apply orb_true_iff in H; destruct H as [H|H]).
    - do 4 apply nan_add_l. apply nan_add_r. now apply nan_mul_l.
    - do 3 apply nan_add_l. apply nan_add_r. now apply nan_mul_l.
    - do 2 apply nan_add_l. apply nan_add_r. now apply nan_mul_l.
    - apply nan_add_l. apply nan_add_r. now apply nan_mul_l.
    - apply nan_add_r. now apply nan_mul_l. }
  assert (P : Scoring.probability req = 1) by now apply py_clamp_nan.
  split; [exact N|]. split; [exact P|].
  unfold Scoring.label. rewrite P. reflexivity.
Qed.

(** X16.  The label never goes down when the probability goes up: for
    [p <= q] the label of [p] ranks at most as high as the label of [q]
    ("Low Risk" below "Moderate Risk" below "High Risk"). *)
Theorem label_monotone p q :
  (p <=? q) = true ->
  risk_rank (Scoring.label_of p) <= risk_rank (Scoring.label_of q).
Proof.
  intros L. unfold Scoring.label_of.
  destruct (q <? 0.33) eqn:Q1.
  - rewrite (leb_ltb_trans p q 0.33 L Q1). apply le_n.
  - destruct (q <? 0.66) eqn:Q2.
    + rewrite (leb_ltb_trans p q 0.66 L Q2).
      destruct (p <? 0.33); vm_compute; lia.
    + destruct (p <? 0.33); [|destruct (p <? 0.66)]; vm_compute; lia.
Qed.

(** X17.  For a questionnaire answered by yes or no (1.0 or 0.0 per
    question, as the request model's comment describes the answers), the
    clamp changes nothing and the label depends on the number of yes
    answers alone: none or one is "Low Risk", two or three "Moderate Risk",
    four or five "High Risk". *)
Theorem yes_no_scoring b1 b2 b3 b4 b5 :
  Scoring.probability (yes_no b1 b2 b3 b4 b5) =
    Scoring.total (yes_no b1 b2 b3 b4 b5) /\
  Scoring.label (yes_no b1 b2 b3 b4 b5) =
    match yes_count b1 b2 b3 b4 b5 with
    | 0%nat | 1%nat => "Low Risk"%string
    | 2%nat | 3%nat => "Moderate Risk"%string
    | _ => "High Risk"%string
    end.
Proof.
  destruct b1, b2, b3, b4, b5; split; vm_compute; reflexivity.
Qed.

End ScoringEdges.

(** * Beyond the claims: tokens, roles and listings *)

Section Access.
Import StoreFacts.

Variable sha256_hexdigest : string -> string.

(** X18.  The token of a successful login, when no earlier session carries
    it, resolves to a session with the [user_id] and the role of the
    response; that [user_id] is the identifier of the user document the
    login found, and the token-guarded listing of the role accepts the
    token. *)
Theorem login_token_roundtrip tok req db resp db' :
  login sha256_hexdigest tok req db = (inr resp, db') ->
  resolve_session tok db = None ->
  resolve_session (AuthResponse.token resp) db' =
    Some (Session.mk (AuthResponse.user_id resp) (AuthResponse.role resp)
            (AuthResponse.token resp)) /\
  (exists u,
     find_user (AuthResponse.role resp) (LoginRequest.email req) db = Some u /\
     AuthResponse.user_id resp = str_oid (user_oid u) /\
     AuthResponse.name resp = user_name u) /\
  (AuthResponse.role resp = "patient" ->
   exists items,
     patient_assessments (AuthResponse.token resp) db' = (inr items, db')) /\
  (AuthResponse.role resp = "doctor" ->
   exists items,
     doctor_assessments (AuthResponse.token resp) db' = (inr items, db')).
Proof.
  intros H N.
  destruct (login_effect sha256_hexdigest tok req db) as [E|[E|[E|(u & F & E)]]];
    rewrite E in H; try discriminate. injection H as <- <-.
  cbn [AuthResponse.token AuthResponse.user_id AuthResponse.role
       AuthResponse.name].
  set (s := Session.mk (str_oid (user_oid u)) (lower (LoginRequest.role req))
              tok).
  match goal with
  | |- resolve_session _ ?d = _ /\ _ =>
      assert (R : resolve_session tok d = Some s)
        by (apply (resolve_session_new tok (mkDoc (next_oid db) s) db);
            [exact N|reflexivity|reflexivity])
  end.
  split; [exact R|]. split; [now exists u|]. split.
  - intros P. rewrite patient_assessments_run, R.
    cbn [Session.role s]. rewrite P. simpl. eauto.
  - intros P. rewrite doctor_assessments_run, R.
    cbn [Session.role s]. rewrite P. simpl. eauto.
Qed.

(** X19.  A token is bound to the role it was issued for: the token of a
    successful patient registration (no earlier session carrying it) is
    refused with 401 by both doctor handlers, and the token of a doctor
    registration is refused by the patient's listing. *)
Theorem registered_token_is_role_bound tok req db resp db1 freq :
  register sha256_hexdigest tok req db = (inr resp, db1) ->
  resolve_session tok db = None ->
  (AuthResponse.role resp = "patient" ->
   doctor_assessments tok db1 = (inl (HTTPException 401 "Unauthorized"), db1)
   /\
   doctor_feedback freq tok db1 = (inl (HTTPException 401 "Unauthorized"), db1))
  /\
  (AuthResponse.role resp = "doctor" ->
   patient_assessments tok db1
   = (inl (HTTPException 401 "Unauthorized"), db1)).
Proof.
  intros H N.
  destruct (register_effect sha256_hexdigest tok req db)
    as [E|[E|[E|[(_ & _ & E)|(_ & _ & E)]]]]; rewrite E in H;
    try discriminate; injection H as <- <-; cbn [AuthResponse.role].
  - set (s := Session.mk (str_oid (next_oid db)) "patient" tok).
    split; [intros _|discriminate].
    rewrite doctor_assessments_run, doctor_feedback_run.
    match goal with
    | |- context [resolve_session tok ?d] =>
        assert (R : resolve_session tok d = Some s)
          by (apply (resolve_session_new tok (mkDoc (S (next_oid db)) s) db);
              [exact N|reflexivity|reflexivity])
    end.
    rewrite R. now split.
  - set (s := Session.mk (str_oid (next_oid db)) "doctor" tok).
    split; [discriminate|intros _].
    rewrite patient_assessments_run.
    match goal with
    | |- context [resolve_session tok ?d] =>
        assert (R : resolve_session tok d = Some s)
          by (apply (resolve_session_new tok (mkDoc (S (next_oid db)) s) db);
              [exact N|reflexivity|reflexivity])
    end.
    now rewrite R.
Qed.

(** X20.  Every prediction is listed to every doctor from then on, whoever
    sent it and whoever it is recorded for: after a [predict] that got past
    the identifier check, a doctor's listing holds the assessments of before
    and the new document, each once and nothing else. *)
Theorem predict_then_doctor_lists req token user_id db dtok s :
  (truthy token || truthy user_id) = true ->
  resolve_session dtok db = Some s -> Session.role s = "doctor" ->
  exists resp db' new a,
    predict req token user_id db = (inr resp, db') /\
    doctor_assessments dtok db' = (inr new, db') /\
    Permutation new (a :: assessment db) /\
    (forall d, In d new <-> d = a \/ In d (assessment db)) /\
    str_oid (oid a) = PredictResponse.assessment_id resp /\
    Assessment.probability (body a) = PredictResponse.probability resp /\
    Assessment.result_label (body a) = PredictResponse.label resp.
Proof.
  intros I RS D. destruct (resolve_pid_total token user_id db) as [pid R].
  set (a := mkDoc (next_oid db) (predict_assessment req pid)).
  exists (PredictResponse.mk (str_oid (next_oid db))
            (Scoring.probability req) (Scoring.label req)).
  exists (mkDatabase (patient db) (doctor db) (assessment db ++ [a])
            (feedback db) (session db) (S (next_oid db))).
  exists (assessment db ++ [a])%list, a.
  split; [exact (predict_run req token user_id db pid I R)|].
  split; [|split; [|split; [|now repeat split]]].
  - rewrite doctor_assessments_run.
    change (resolve_session dtok _) with (resolve_session dtok db).
    rewrite RS, D. reflexivity.
  - apply Permutation_sym, Permutation_cons_append.
  - intros d. rewrite in_app_iff. simpl. split.
    + intros [H|[H|[]]]; [now right|now left].
    + intros [H|H]; [right; now left|now left].
Qed.

(** X21.  The identifier check of [predict] is weak: whoever knows a
    patient's [user_id] can, with that id alone and any token or none, add
    an assessment that then shows up in that patient's own listing. *)
Theorem bare_user_id_reaches_listing req token t s db :
  resolve_session t db = Some s -> Session.role s = "patient" ->
  Session.user_id s <> "" ->
  exists resp db' old a,
    predict req token (Some (Session.user_id s)) db = (inr resp, db') /\
    patient_assessments t db = (inr old, db) /\
    patient_assessments t db' = (inr (old ++ [a])%list, db') /\
    str_oid (oid a) = PredictResponse.assessment_id resp.
Proof.
  intros RS P U. pose proof (proj2 (truthy_some _) U) as T.
  assert (I : (truthy token || truthy (Some (Session.user_id s))) = true)
    by now rewrite T, orb_true_r.
  pose proof (resolve_pid_user_id token (Some (Session.user_id s)) db T) as R.
  exists (PredictResponse.mk (str_oid (next_oid db))
            (Scoring.probability req) (Scoring.label req)).
  exists (mkDatabase (patient db) (doctor db)
            (assessment db ++
             [mkDoc (next_oid db)
                (predict_assessment req (Some (Session.user_id s)))])
            (feedback db) (session db) (S (next_oid db))).
  exists (filter (fun d => String.eqb (Assessment.patient_id (body d))
                             (Session.user_id s)) (assessment db)).
  exists (mkDoc (next_oid db)
            (predict_assessment req (Some (Session.user_id s)))).
  split; [exact (predict_run req token _ db _ I R)|].
  split; [|split; [|reflexivity]].
  - rewrite patient_assessments_run, RS, P. reflexivity.
  - rewrite patient_assessments_run.
    change (resolve_session t _) with (resolve_session t db).
    rewrite RS, P. simpl String.eqb. cbv iota. cbn [assessment].
    rewrite filter_app. f_equal. f_equal. f_equal.
    cbn [filter body predict_assessment Assessment.patient_id].
    now rewrite (py_or_some _ _ U), String.eqb_refl.
Qed.

(** X22.  Credentials are per role: after registering under one role, a
    login with the same email under the other role is refused with 401,
    whatever the password, unless that email is registered under the other
    role too. *)
Theorem credentials_are_per_role tok req db resp db1 role' tok' pw' :
  register sha256_hexdigest tok req db = (inr resp, db1) ->
  bad_role (lower role') = false ->
  lower role' <> lower (RegisterRequest.role req) ->
  ~ registered (lower role') (RegisterRequest.email req) db ->
  login sha256_hexdigest tok'
    (LoginRequest.mk role' (RegisterRequest.email req) pw') db1 =
  (inl (HTTPException 401 "Invalid credentials"), db1).
Proof.
  intros H B D NR.
  apply (find_user_none _ _ _ B) in NR.
  apply login_no_user; [exact B|]. cbn [LoginRequest.role LoginRequest.email].
  pose proof B as V. apply bad_role_false in V.
  destruct (register_effect sha256_hexdigest tok req db)
    as [E|[E|[E|[(R & _ & E)|(R & _ & E)]]]]; rewrite E in H;
    try discriminate; injection H as _ <-; rewrite R in D;
    destruct V as [V|V]; try contradiction; rewrite V in *; exact NR.
Qed.

End Access.

(** * Closed runs of the longer visit *)

Lemma ann_db_reachable : reachable example_digest ann_db.
Proof.
  exact (reachable_step example_digest empty_db ann_db
           (reachable_empty example_digest)
           (step_register example_digest "tok-1" ann empty_db)).
Qed.

Lemma ann_to_reviewed : steps example_digest ann_db reviewed_db.
Proof.
  apply (steps_step example_digest ann_db staffed_db reviewed_db).
  - apply (steps_step example_digest ann_db visit_db staffed_db).
    + apply (steps_step example_digest ann_db ann_db visit_db).
      * apply steps_refl.
      * exact (step_predict example_digest mixed_answers (Some "tok-1") None
                 ann_db).
    + exact (step_register example_digest "tok-d" bo visit_db).
  - exact (step_doctor_feedback example_digest
             (FeedbackRequest.mk "2" "come back in a month" (Some "Low") None)
             "tok-d" staffed_db).
Qed.

Lemma reviewed_db_reachable : reachable example_digest reviewed_db.
Proof.
  pose proof ann_db_reachable as R.
  induction ann_to_reviewed as [db|db db1 db2 _ IH S]; [exact R|].
  apply (reachable_step example_digest db1 db2); [now apply IH|exact S].
Qed.

(** X5, over the visit: Ann's store is the beginning of the reviewed one. *)
Lemma runs_append_only_witness :
  steps example_digest ann_db reviewed_db /\ extends ann_db reviewed_db.
Proof.
  split; [exact ann_to_reviewed|].
  exact (runs_append_only example_digest ann_db reviewed_db ann_to_reviewed).
Defined.

(** X6, over the visit: Ann's token still resolves to her session. *)
Lemma tokens_never_expire_witness :
  steps example_digest ann_db reviewed_db /\
  resolve_session "tok-1" ann_db = Some ann_session /\
  (forall d1 d2,
     In d1 (session reviewed_db) -> In d2 (session reviewed_db) ->
     Session.token (body d1) = "tok-1" -> Session.token (body d2) = "tok-1" ->
     d1 = d2) /\
  resolve_session "tok-1" reviewed_db = Some ann_session.
Proof.
  assert (U : forall d1 d2,
            In d1 (session reviewed_db) -> In d2 (session reviewed_db) ->
            Session.token (body d1) = "tok-1" ->
            Session.token (body d2) = "tok-1" -> d1 = d2).
  { intros d1 d2 [<-|[<-|[]]] [<-|[<-|[]]] T1 T2;
      try reflexivity; discriminate. }
  split; [exact ann_to_reviewed|]. split; [reflexivity|]. split; [exact U|].
  exact (proj1 (tokens_never_expire example_digest "tok-1" ann_session ann_db
                  reviewed_db ann_to_reviewed eq_refl U)).
Defined.

(** X7, after the visit. *)
Lemma reachable_emails_unique_witness :
  reachable example_digest reviewed_db /\
  NoDup (map (fun d => Patient.email (body d)) (patient reviewed_db)) /\
  NoDup (map (fun d => Doctor.email (body d)) (doctor reviewed_db)).
Proof.
  split; [exact reviewed_db_reachable|].
  exact (reachable_emails_unique example_digest reviewed_db
           reviewed_db_reachable).
Defined.

(** X8, after the visit: Bo's session stands for a doctor document. *)
Lemma reachable_sessions_refer_witness :
  reachable example_digest reviewed_db /\
  In (mkDoc 4 (Session.mk "3" "doctor" "tok-d")) (session reviewed_db) /\
  session_refers reviewed_db (Session.mk "3" "doctor" "tok-d").
Proof.
  assert (I : In (mkDoc 4 (Session.mk "3" "doctor" "tok-d"))
                (session reviewed_db)) by (right; left; reflexivity).
  split; [exact reviewed_db_reachable|]. split; [exact I|].
  exact (reachable_sessions_refer example_digest reviewed_db
           reviewed_db_reachable _ I).
Defined.

(** X9, after the visit: Ann's assessment. *)
Lemma reachable_assessments_sound_witness :
  reachable example_digest reviewed_db /\
  In (mkDoc 2 (predict_assessment mixed_answers (Some "0")))
    (assessment reviewed_db) /\
  assessment_sound (predict_assessment mixed_answers (Some "0")).
Proof.
  assert (I : In (mkDoc 2 (predict_assessment mixed_answers (Some "0")))
                (assessment reviewed_db)) by (left; reflexivity).
  split; [exact reviewed_db_reachable|]. split; [exact I|].
  exact (reachable_assessments_sound example_digest reviewed_db
           reviewed_db_reachable _ I).
Defined.

(** X10, after the visit: Bo's feedback. *)
Lemma reachable_feedback_refers_witness :
  reachable example_digest reviewed_db /\
  In (mkDoc 5 (Feedback.mk "3" "2" "come back in a month" (Some "Low") []))
    (feedback reviewed_db) /\
  feedback_refers reviewed_db
    (Feedback.mk "3" "2" "come back in a month" (Some "Low") []).
Proof.
  assert (I : In (mkDoc 5 (Feedback.mk "3" "2" "come back in a month"
                             (Some "Low") []))
                (feedback reviewed_db)) by (left; reflexivity).
  split; [exact reviewed_db_reachable|]. split; [exact I|].
  exact (reachable_feedback_refers example_digest reviewed_db
           reviewed_db_reachable _ I).
Defined.

(** X11, for Ann: she logs in as "PATIENT" with her password. *)
Lemma register_then_login_witness :
  register example_digest "tok-1" ann empty_db = (inr ann_resp, ann_db) /\
  lower "PATIENT" = lower (RegisterRequest.role ann) /\
  has_surrogate "pw" = false /\
  example_digest "pw" = example_digest (RegisterRequest.password ann) /\
  exists db2,
    login example_digest "tok-2"
      (LoginRequest.mk "PATIENT" "ann@example.org" "pw") ann_db =
    (inr (AuthResponse.mk "tok-2" "patient" "0" "Ann" "ann@example.org"), db2).
Proof.
  split; [reflexivity|]. split; [reflexivity|]. split; [reflexivity|].
  split; [reflexivity|].
  exact (proj1 (register_then_login example_digest "tok-1" ann empty_db
                  ann_resp ann_db "PATIENT" "tok-2" "pw" eq_refl eq_refl)
           eq_refl eq_refl).
Defined.

(** X12, for Ann: a second registration of her email as a patient. *)
Lemma register_twice_conflict_witness :
  register example_digest "tok-1" ann empty_db = (inr ann_resp, ann_db) /\
  lower "Patient" = lower (RegisterRequest.role ann) /\
  register example_digest "tok-2"
    (RegisterRequest.mk "Patient" "Anna" "ann@example.org" "other") ann_db =
  (inl (HTTPException 409 "Email already registered"), ann_db).
Proof.
  split; [reflexivity|]. split; [reflexivity|].
  exact (register_twice_conflict example_digest "tok-1" ann empty_db ann_resp
           ann_db "tok-2" "Patient" "Anna" "other" eq_refl eq_refl).
Defined.

(** X13, for Ann: her first assessment appears in her listing. *)
Lemma predict_then_listed_witness :
  db_wf ann_db /\ "tok-1" <> "" /\ truthy None = false /\
  resolve_session "tok-1" ann_db = Some ann_session /\
  Session.role ann_session = "patient" /\
  exists resp db' new a,
    predict mixed_answers (Some "tok-1") None ann_db = (inr resp, db') /\
    patient_assessments "tok-1" db' = (inr new, db') /\
    Permutation new [a] /\
    str_oid (oid a) = PredictResponse.assessment_id resp.
Proof.
  assert (T : "tok-1" <> "") by (apply String.eqb_neq; reflexivity).
  split; [exact ann_db_wf|]. split; [exact T|]. split; [reflexivity|].
  split; [reflexivity|]. split; [reflexivity|].
  destruct (predict_then_listed mixed_answers "tok-1" None ann_db ann_session
              ann_db_wf T eq_refl eq_refl eq_refl)
    as (resp & db' & old & new & a & E & O & L & Q & _ & I & _).
  exists resp, db', new, a. split; [exact E|]. split; [exact L|].
  split; [|exact I]. injection O as <-. exact Q.
Defined.

(** X14, for Ann's answers sent twice with her token. *)
Lemma predict_twice_witness :
  (truthy (Some "tok-1") || truthy None) = true /\
  exists r1 db1 r2 db2,
    predict mixed_answers (Some "tok-1") None ann_db = (inr r1, db1) /\
    predict mixed_answers (Some "tok-1") None db1 = (inr r2, db2) /\
    PredictResponse.assessment_id r1 <> PredictResponse.assessment_id r2.
Proof.
  split; [reflexivity|].
  destruct (predict_twice mixed_answers (Some "tok-1") None ann_db eq_refl)
    as (r1 & db1 & r2 & db2 & a & E1 & E2 & _ & _ & D & _).
  exists r1, db1, r2, db2. split; [exact E1|]. split; [exact E2|exact D].
Defined.

(** X15, at a request whose second answer is NaN. *)
Lemma nan_answer_scores_high_witness :
  (is_nan 0 || is_nan nan || is_nan 0 || is_nan 0 || is_nan 0) = true /\
  Scoring.probability (PredictionRequest.mk 0 nan 0 0 0 None) = 1%float /\
  Scoring.label (PredictionRequest.mk 0 nan 0 0 0 None) = "High Risk".
Proof.
  split; [reflexivity|].
  exact (proj2 (ScoringEdges.nan_answer_scores_high
                  (PredictionRequest.mk 0 nan 0 0 0 None) eq_refl)).
Defined.

(** X16, between 0.2 and 0.7. *)
Lemma label_monotone_witness :
  (0.2 <=? 0.7)%float = true /\
  risk_rank (Scoring.label_of 0.2) <= risk_rank (Scoring.label_of 0.7).
Proof.
  split; [reflexivity|].
  exact (ScoringEdges.label_monotone 0.2 0.7 eq_refl).
Defined.

(** X18, for Ann's second login. *)
Lemma login_token_roundtrip_witness :
  login example_digest "tok-2" ann_login ann_db =
    (inr (AuthResponse.mk "tok-2" "patient" "0" "Ann" "ann@example.org"),
     relogged_db) /\
  resolve_session "tok-2" ann_db = None /\
  resolve_session "tok-2" relogged_db =
    Some (Session.mk "0" "patient" "tok-2").
Proof.
  assert (H : login example_digest "tok-2" ann_login ann_db =
              (inr (AuthResponse.mk "tok-2" "patient" "0" "Ann"
                      "ann@example.org"), relogged_db)) by reflexivity.
  assert (N : resolve_session "tok-2" ann_db = None) by reflexivity.
  split; [exact H|]. split; [exact N|].
  exact (proj1 (login_token_roundtrip example_digest "tok-2" ann_login ann_db
                  _ relogged_db H N)).
Defined.

(** X19, for Ann's token at the doctors' listing. *)
Lemma registered_token_is_role_bound_witness :
  register example_digest "tok-1" ann empty_db = (inr ann_resp, ann_db) /\
  resolve_session "tok-1" empty_db = None /\
  doctor_assessments "tok-1" ann_db
  = (inl (HTTPException 401 "Unauthorized"), ann_db).
Proof.
  assert (H : register example_digest "tok-1" ann empty_db
              = (inr ann_resp, ann_db)) by reflexivity.
  assert (N : resolve_session "tok-1" empty_db = None) by reflexivity.
  split; [exact H|]. split; [exact N|].
  exact (proj1 (proj1 (registered_token_is_role_bound example_digest "tok-1"
                         ann empty_db ann_resp ann_db
                         (FeedbackRequest.mk "2" "" None None) H N)
                  eq_refl)).
Defined.

(** X20, for a prediction sent with a stray token while Bo is registered. *)
Lemma predict_then_doctor_lists_witness :
  (truthy (Some "stray") || truthy None) = true /\
  resolve_session "tok-d" staffed_db = Some (Session.mk "3" "doctor" "tok-d")
  /\
  exists resp db' new a,
    predict mixed_answers (Some "stray") None staffed_db = (inr resp, db') /\
    doctor_assessments "tok-d" db' = (inr new, db') /\
    Permutation new (a :: assessment staffed_db) /\
    str_oid (oid a) = PredictResponse.assessment_id resp.
Proof.
  split; [reflexivity|]. split; [reflexivity|].
  destruct (predict_then_doctor_lists mixed_answers (Some "stray") None
              staffed_db "tok-d" (Session.mk "3" "doctor" "tok-d")
              eq_refl eq_refl eq_refl)
    as (resp & db' & new & a & E & L & Q & _ & I & _).
  exists resp, db', new, a. split; [exact E|]. split; [exact L|].
  split; [exact Q|exact I].
Defined.

(** X21, for Ann's id sent by someone without a token. *)
Lemma bare_user_id_reaches_listing_witness :
  resolve_session "tok-1" ann_db = Some ann_session /\
  Session.role ann_session = "patient" /\
  Session.user_id ann_session <> "" /\
  exists resp db' a,
    predict mixed_answers None (Some "0") ann_db = (inr resp, db') /\
    patient_assessments "tok-1" db' = (inr [a], db').
Proof.
  assert (U : Session.user_id ann_session <> "")
    by (apply String.eqb_neq; reflexivity).
  split; [reflexivity|]. split; [reflexivity|]. split; [exact U|].
  destruct (bare_user_id_reaches_listing mixed_answers None "tok-1"
              ann_session ann_db eq_refl eq_refl U)
    as (resp & db' & old & a & E & O & L & _).
  exists resp, db', a. split; [exact E|]. injection O as <-. exact L.
Defined.

(** X22, for Ann trying the doctors' login. *)
Lemma credentials_are_per_role_witness :
  register example_digest "tok-1" ann empty_db = (inr ann_resp, ann_db) /\
  bad_role (lower "Doctor") = false /\
  lower "Doctor" <> lower (RegisterRequest.role ann) /\
  ~ registered (lower "Doctor") (RegisterRequest.email ann) empty_db /\
  login example_digest "tok-2"
    (LoginRequest.mk "Doctor" "ann@example.org" "pw") ann_db =
  (inl (HTTPException 401 "Invalid credentials"), ann_db).
Proof.
  assert (D : lower "Doctor" <> lower (RegisterRequest.role ann))
    by (apply String.eqb_neq; reflexivity).
  assert (NR : ~ registered (lower "Doctor") (RegisterRequest.email ann)
                 empty_db).
  { intros [[E _]|[_ (d & [] & _)]]. discriminate. }
  split; [reflexivity|]. split; [reflexivity|]. split; [exact D|].
  split; [exact NR|].
  exact (credentials_are_per_role example_digest "tok-1" ann empty_db ann_resp
           ann_db "Doctor" "tok-2" "pw" eq_refl eq_refl D NR).
Defined.

(** ** Passwords that cannot be encoded *)

(** Only the lone surrogate is refused by [encode]. *)
Example encode_runs :
  encode lone_surrogate = inl UnicodeEncodeError /\
  encode ("pw" ++ lone_surrogate ++ "!") = inl UnicodeEncodeError /\
  encode e_acute = inr e_acute /\
  encode below_surrogates = inr below_surrogates /\
  encode above_surrogates = inr above_surrogates /\
  encode "" = inr "".
Proof. repeat split; reflexivity. Qed.

(** A registration with such a password passes the two checks and stops
    before it writes; with a taken email it is the 409 that comes first. *)
Example register_unencodable_run :
  register example_digest "tok-2"
    (RegisterRequest.mk "patient" "Eve" "eve@example.org" lone_surrogate)
    ann_db
  = (inl UnicodeEncodeError, ann_db) /\
  register example_digest "tok-2"
    (RegisterRequest.mk "patient" "Eve" "ann@example.org" lone_surrogate)
    ann_db
  = (inl (HTTPException 409 "Email already registered"), ann_db).
Proof. split; reflexivity. Qed.

(** A login with such a password: for Ann, who exists, the digest is never
    compared; for an email nobody registered it is the 401 that comes
    first. *)
Example login_unencodable_run :
  login example_digest "tok-2"
    (LoginRequest.mk "patient" "ann@example.org" lone_surrogate) ann_db
  = (inl UnicodeEncodeError, ann_db) /\
  login example_digest "tok-2"
    (LoginRequest.mk "patient" "bob@example.org" lone_surrogate) ann_db
  = (inl (HTTPException 401 "Invalid credentials"), ann_db).
Proof. split; reflexivity. Qed.
